(** * Fleet dashboard: reminder due-state, field schema and vehicle form

    A shallow embedding of the state-changing handlers and validators of the
    fleet-management dashboard (FleetDashboard, RemindersPanel, FieldManager,
    VehicleForm), followed by the properties stated about them.

    Conventions of the embedding:
    - a JavaScript [number] is a [Z]: mileages come from [parseInt] and
      time values are whole milliseconds; a mileage threshold typed with a
      fraction is outside the model; [NaN] is [None] where it can arise;
    - a JavaScript string is a [string]; case mapping and trimming act on
      the ASCII range;
    - an object used as a dictionary is a [gmap string _];
    - React state is passed explicitly: a handler takes the props and state
      it closes over and returns what it hands to the setters;
    - the clock ([new Date()], [Date.now()]) is an explicit argument. *)

From stdpp Require Import base option list strings gmap pretty.
From Stdlib Require Import Ascii ZArith Lia.

Local Open Scope Z_scope.

(** ** JavaScript values and built-ins used by the components *)

Module JS.

(** [String.prototype.toLowerCase], ASCII letters. *)
Definition lower_ascii (c : ascii) : ascii :=
  let n := Ascii.N_of_ascii c in
  if ((65 <=? n) && (n <=? 90))%N then Ascii.ascii_of_N (n + 32) else c.

Fixpoint toLowerCase (s : string) : string :=
  match s with
  | EmptyString => EmptyString
  | String c s' => String (lower_ascii c) (toLowerCase s')
  end.

(** White space removed by [String.prototype.trim]: TAB, LF, VT, FF, CR, SP. *)
Definition isWhiteSpace (c : ascii) : bool :=
  let n := Ascii.N_of_ascii c in
  (((9 <=? n) && (n <=? 13)) || (n =? 32))%N.

Fixpoint trimStart (s : string) : string :=
  match s with
  | EmptyString => EmptyString
  | String c s' => if isWhiteSpace c then trimStart s' else s
  end.

Fixpoint trimEnd (s : string) : string :=
  match s with
  | EmptyString => EmptyString
  | String c s' =>
      match trimEnd s' with
      | EmptyString => if isWhiteSpace c then EmptyString else String c EmptyString
      | r => String c r
      end
  end.

Definition trim (s : string) : string := trimEnd (trimStart s).

(** Truthiness of a string: only the empty string is falsy. *)
Definition truthyString (s : string) : bool := negb (bool_decide (s = EmptyString)).

(** The values a vehicle's [customFields] dictionary holds ([any] in the
    source): what the form writes (strings, numbers) and what a property
    read can return besides ([undefined], an inherited built-in). *)
Inductive Value : Type :=
| VUndefined
| VNull
| VBool (b : bool)
| VNumber (n : Z)
| VString (s : string)
| VBuiltin.

(** ToBoolean. *)
Definition truthy (v : Value) : bool :=
  match v with
  | VUndefined | VNull => false
  | VBool b => b
  | VNumber n => negb (n =? 0)
  | VString s => truthyString s
  | VBuiltin => true
  end.

(** Property names every object literal inherits from [Object.prototype]. *)
Definition ObjectPrototype_keys : list string :=
  [ "constructor"; "hasOwnProperty"; "isPrototypeOf"; "propertyIsEnumerable";
    "toLocaleString"; "toString"; "valueOf"; "__proto__";
    "__defineGetter__"; "__defineSetter__"; "__lookupGetter__";
    "__lookupSetter__" ]%string.

(** The property read [o[k]] on an object literal: the own property when
    there is one, else the inherited built-in, else [undefined]. *)
Definition getProp (o : gmap string Value) (k : string) : Value :=
  match o !! k with
  | Some v => v
  | None => if bool_decide (k ∈ ObjectPrototype_keys) then VBuiltin else VUndefined
  end.

(** *** Dates

    A [Date] is its time value: milliseconds since the epoch, [None] for
    an invalid date (time value [NaN]). *)

Definition msPerDay : Z := 86400000.

(** Day number of the first day of year [y] (ECMAScript DayFromYear). *)
Definition DayFromYear (y : Z) : Z :=
  365 * (y - 1970) + (y - 1969) / 4 - (y - 1901) / 100 + (y - 1601) / 400.

Definition InLeapYear (y : Z) : bool :=
  ((y mod 4 =? 0) && negb (y mod 100 =? 0)) || (y mod 400 =? 0).

Definition DaysInMonth (y m : Z) : Z :=
  if m =? 2 then (if InLeapYear y then 29 else 28)
  else if (m =? 4) || (m =? 6) || (m =? 9) || (m =? 11) then 30
  else 31.

(** Days of year [y] before the first of month [m] (1-based). *)
Fixpoint daysBeforeMonth (y : Z) (m : nat) : Z :=
  match m with
  | O => 0
  | S O => 0
  | S m' => daysBeforeMonth y m' + DaysInMonth y (Z.of_nat m')
  end.

(** Day number of the calendar date [y]-[m]-[d] (ECMAScript MakeDay). *)
Definition MakeDay (y m d : Z) : Z :=
  DayFromYear y + daysBeforeMonth y (Z.to_nat m) + (d - 1).

Definition digit (c : ascii) : option Z :=
  let n := Z.of_N (Ascii.N_of_ascii c) in
  if (48 <=? n) && (n <=? 57) then Some (n - 48) else None.

Definition isDash (c : ascii) : bool := bool_decide (c = "-"%char).

(** The date-only form [YYYY-MM-DD] of the ECMAScript date-time string
    format (what an [<input type="date">] yields), as year, month, day. *)
Definition parseDateOnly (s : string) : option (Z * Z * Z) :=
  match s with
  | String y1 (String y2 (String y3 (String y4 (String s1
      (String m1 (String m2 (String s2 (String d1 (String d2 EmptyString))))))))) =>
      a ← digit y1; b ← digit y2; c ← digit y3; d ← digit y4;
      e ← digit m1; f ← digit m2; g ← digit d1; h ← digit d2;
      let y := 1000 * a + 100 * b + 10 * c + d in
      let m := 10 * e + f in
      let dd := 10 * g + h in
      if isDash s1 && isDash s2 && (1 <=? m) && (m <=? 12)
         && (1 <=? dd) && (dd <=? DaysInMonth y m)
      then Some (y, m, dd) else None
  | _ => None
  end.

(** Day number denoted by a date-only string. *)
Definition dayOfDateOnly (s : string) : option Z :=
  '(y, m, d) ← parseDateOnly s; Some (MakeDay y m d).

(** What the JavaScript engine decides and the repository does not: how
    [Date.parse] reads a string that is not a valid date-only form, and
    the numeric value of a string in a comparison with a number
    ([None] is [NaN] in both). *)
Record Engine : Type := {
  Date_parse_other : string → option Z;
  StringToNumber : string → option Z
}.

(** [Date.parse]: a date-only form denotes midnight UTC of that day. *)
Definition Date_parse (engine : Engine) (s : string) : option Z :=
  match dayOfDateOnly s with
  | Some day => Some (day * msPerDay)
  | None => Date_parse_other engine s
  end.

(** TimeClip: time values beyond 8.64e15 ms are invalid. *)
Definition TimeClip (t : Z) : option Z :=
  if Z.abs t <=? 8640000000000000 then Some t else None.

(** [a <= b] on two dates: a comparison of time values, false when
    either is invalid. *)
Definition Date_le (a b : option Z) : bool :=
  match a, b with
  | Some x, Some y => x <=? y
  | _, _ => false
  end.

(** UTC calendar day of an instant, and the calendar day in a zone whose
    local time is UTC plus [tza] milliseconds. *)
Definition utcDay (t : Z) : Z := t / msPerDay.
Definition localDay (tza t : Z) : Z := (t + tza) / msPerDay.

End JS.

(** ** Data model *)

Inductive VehicleStatus : Type := available | in_use | maintenance | inactive.

Inductive FieldType : Type := text | number | dropdown.

Inductive TriggerType : Type := date | mileage.

Inductive ReminderStatus : Type := incomplete | complete.

#[global] Instance VehicleStatus_eq_dec : EqDecision VehicleStatus.
Proof. solve_decision. Defined.
#[global] Instance FieldType_eq_dec : EqDecision FieldType.
Proof. solve_decision. Defined.
#[global] Instance TriggerType_eq_dec : EqDecision TriggerType.
Proof. solve_decision. Defined.
#[global] Instance ReminderStatus_eq_dec : EqDecision ReminderStatus.
Proof. solve_decision. Defined.

Module Vehicle.
Record t : Type := mk {
  id : string;
  name : string;
  status : VehicleStatus;
  mileage : Z;
  customFields : gmap string JS.Value;
  documents : list string;
  lastUpdated : string;
  updatedBy : string
}.
End Vehicle.

(** [Partial<Vehicle>]: every property may be absent. *)
Module PartialVehicle.
Record t : Type := mk {
  id : option string;
  name : option string;
  status : option VehicleStatus;
  mileage : option Z;
  customFields : option (gmap string JS.Value);
  documents : option (list string);
  lastUpdated : option string;
  updatedBy : option string
}.
End PartialVehicle.

Module DropdownOption.
Record t : Type := mk {
  value : string;
  color : option string
}.
End DropdownOption.

Module CustomField.
Record t : Type := mk {
  id : string;
  name : string;
  type : FieldType;
  options : option (list DropdownOption.t);
  required : bool
}.
End CustomField.

(** [string | number] *)
Inductive TriggerValue : Type :=
| TVString (s : string)
| TVNumber (n : Z).

Module Reminder.
Record t : Type := mk {
  id : string;
  vehicleId : string;
  description : string;
  triggerType : TriggerType;
  triggerValue : TriggerValue;
  status : ReminderStatus;
  completedAt : option string;
  completedBy : option string
}.
End Reminder.

(** The clock collaborator read by a handler: [Date.now()] in milliseconds
    and [new Date().toLocaleString()]. *)
Record Clock : Type := {
  Date_now : Z;
  toLocaleString : string
}.

(** [Date.now().toString()] *)
Definition Date_now_toString (clock : Clock) : string := pretty (Date_now clock).

(** [a || b] on strings. *)
Definition orString (a b : string) : string := if JS.truthyString a then a else b.

(** [a || b] on numbers. *)
Definition orNumber (a b : Z) : Z := if a =? 0 then b else a.

(** ** More built-ins and conversions *)

Module Builtins.

(** [s.startsWith(t)] *)
Fixpoint startsWith (s t : string) : bool :=
  match t, s with
  | EmptyString, _ => true
  | String _ _, EmptyString => false
  | String b t', String a s' => bool_decide (a = b) && startsWith s' t'
  end.

(** [s.includes(t)]: [t] occurs in [s] at some position. *)
Fixpoint includes (s t : string) : bool :=
  startsWith s t
  || match s with
     | EmptyString => false
     | String _ s' => includes s' t
     end.

(** [l.filter((x, index) => p(x, index))], counting positions from [i]. *)
Fixpoint filterWithIndex {A : Type} (p : A → nat → bool) (i : nat) (l : list A)
    : list A :=
  match l with
  | [] => []
  | x :: l' =>
      if p x i then x :: filterWithIndex p (S i) l'
      else filterWithIndex p (S i) l'
  end.

(** [l.filter((_, index) => index !== k)] *)
Definition removeAt {A : Type} (k : nat) (l : list A) : list A :=
  filterWithIndex (λ _ index, negb (bool_decide (index = k))) 0 l.

(** The string of a status in the source. *)
Definition statusString (s : VehicleStatus) : string :=
  match s with
  | available => "available"
  | in_use => "in-use"
  | maintenance => "maintenance"
  | inactive => "inactive"
  end.

End Builtins.

(** ** RemindersPanel *)

Module RemindersPanel.

(** [new Date(reminder.triggerValue as string)]: the cast is erased at run
    time, so a numeric value is read as a time value. *)
Definition new_Date (engine : JS.Engine) (v : TriggerValue) : option Z :=
  match v with
  | TVString s => JS.Date_parse engine s
  | TVNumber n => JS.TimeClip n
  end.

(** [a >= (reminder.triggerValue as number)]: a string operand is converted
    to a number first, and a comparison with [NaN] is false. *)
Definition Number_ge (engine : JS.Engine) (a : Z) (v : TriggerValue) : bool :=
  match v with
  | TVNumber n => a >=? n
  | TVString s =>
      match JS.StringToNumber engine s with
      | Some n => a >=? n
      | None => false
      end
  end.

Definition handleCompleteReminder (clock : Clock) (reminders : list Reminder.t)
    (reminderId : string) : list Reminder.t :=
  (λ r, if bool_decide (Reminder.id r = reminderId)
        then Reminder.mk (Reminder.id r) (Reminder.vehicleId r)
               (Reminder.description r) (Reminder.triggerType r)
               (Reminder.triggerValue r)
               complete
               (Some (toLocaleString clock))
               (Some "Current User"%string)
        else r) <$> reminders.

Definition handleDeleteReminder (reminders : list Reminder.t)
    (reminderId : string) : list Reminder.t :=
  filter (λ r, Reminder.id r ≠ reminderId) reminders.

Definition getCurrentMileage (vehicles : list Vehicle.t) (vehicleId : string) : Z :=
  match find (λ v, bool_decide (Vehicle.id v = vehicleId)) vehicles with
  | Some v => orNumber (Vehicle.mileage v) 0
  | None => 0
  end.

Definition isReminderDue (engine : JS.Engine) (vehicles : list Vehicle.t)
    (now : Z) (reminder : Reminder.t) : bool :=
  if bool_decide (Reminder.status reminder = complete) then false
  else if bool_decide (Reminder.triggerType reminder = date) then
    let triggerDate := new_Date engine (Reminder.triggerValue reminder) in
    let today := Some now in
    JS.Date_le triggerDate today
  else
    let currentMileage := getCurrentMileage vehicles (Reminder.vehicleId reminder) in
    Number_ge engine currentMileage (Reminder.triggerValue reminder).

(** The complete button of a reminder card: rendered, and so clickable, only
    while the reminder is incomplete; clicking it completes by the card's
    reminder id. *)
Definition ReminderCard_onComplete (clock : Clock) (reminders : list Reminder.t)
    (reminder : Reminder.t) : option (list Reminder.t) :=
  if bool_decide (Reminder.status reminder = incomplete)
  then Some (handleCompleteReminder clock reminders (Reminder.id reminder))
  else None.

(** *** The reminder form and the lists the panel shows *)

Record FormData : Type := mkFormData {
  vehicleId : string;
  description : string;
  triggerType : TriggerType;
  triggerValue : string
}.

Record State : Type := mkState {
  showForm : bool;
  editingReminder : option Reminder.t;
  formData : FormData;
  errors : gmap string string
}.

Definition emptyForm : FormData := mkFormData "" "" date "".

(** [setShowForm(false); resetForm()] *)
Definition closedForm : State := mkState false None emptyForm ∅.

Definition handleAddReminder : State := mkState true None emptyForm ∅.

(** [reminder.triggerValue.toString()] *)
Definition triggerValue_toString (v : TriggerValue) : string :=
  match v with
  | TVString s => s
  | TVNumber n => pretty n
  end.

Definition handleEditReminder (st : State) (reminder : Reminder.t) : State :=
  mkState true (Some reminder)
    (mkFormData (Reminder.vehicleId reminder) (Reminder.description reminder)
       (Reminder.triggerType reminder)
       (triggerValue_toString (Reminder.triggerValue reminder)))
    (errors st).

(** [isNaN(Number(v)) || Number(v) <= 0] *)
Definition notPositiveNumber (engine : JS.Engine) (v : string) : bool :=
  match JS.StringToNumber engine v with
  | None => true
  | Some n => n <=? 0
  end.

(** [isNaN(new Date(v).getTime())] *)
Definition invalidDate (engine : JS.Engine) (v : string) : bool :=
  match JS.Date_parse engine v with
  | None => true
  | Some _ => false
  end.

(** The errors assigned by the reminder form's [validateForm], and its
    result. *)
Definition validateForm (engine : JS.Engine) (st : State) : gmap string string * bool :=
  let fd := formData st in
  let newErrors : gmap string string := ∅ in
  let newErrors :=
    if negb (JS.truthyString (vehicleId fd)) then
      <["vehicleId" := "Please select a vehicle"]> newErrors
    else newErrors in
  let newErrors :=
    if negb (JS.truthyString (JS.trim (description fd))) then
      <["description" := "Description is required"]> newErrors
    else newErrors in
  let newErrors :=
    if negb (JS.truthyString (triggerValue fd)) then
      <["triggerValue" := "Trigger value is required"]> newErrors
    else if bool_decide (triggerType fd = mileage)
            && notPositiveNumber engine (triggerValue fd) then
      <["triggerValue" := "Mileage must be a positive number"]> newErrors
    else if bool_decide (triggerType fd = date) then
      if invalidDate engine (triggerValue fd) then
        <["triggerValue" := "Invalid date format"]> newErrors
      else newErrors
    else newErrors in
  (newErrors, bool_decide (size newErrors = 0%nat)).

(** [Number(formData.triggerValue)] once validation has passed, when it
    is a number. *)
Definition numberOf (engine : JS.Engine) (v : string) : Z :=
  default 0 (JS.StringToNumber engine v).

(** The reminder built by [handleSubmit]. *)
Definition reminderData (engine : JS.Engine) (clock : Clock) (st : State)
    : Reminder.t :=
  let fd := formData st in
  Reminder.mk
    (match editingReminder st with
     | Some e => orString (Reminder.id e) (Date_now_toString clock)
     | None => Date_now_toString clock
     end)
    (vehicleId fd)
    (JS.trim (description fd))
    (triggerType fd)
    (if bool_decide (triggerType fd = mileage)
     then TVNumber (numberOf engine (triggerValue fd))
     else TVString (triggerValue fd))
    (match editingReminder st with
     | Some e => Reminder.status e
     | None => incomplete
     end)
    (e ← editingReminder st; Reminder.completedAt e)
    (e ← editingReminder st; Reminder.completedBy e).

(** [handleSubmit]: the panel state afterwards and the reminder list the
    dashboard holds afterwards. *)
Definition handleSubmit (engine : JS.Engine) (clock : Clock)
    (reminders : list Reminder.t) (st : State) : State * list Reminder.t :=
  let '(newErrors, valid) := validateForm engine st in
  if negb valid then
    (mkState (showForm st) (editingReminder st) (formData st) newErrors, reminders)
  else
    (closedForm,
     match editingReminder st with
     | Some e =>
         (λ r, if bool_decide (Reminder.id r = Reminder.id e)
               then reminderData engine clock st else r) <$> reminders
     | None => reminders ++ [reminderData engine clock st]
     end).

Definition getVehicleName (vehicles : list Vehicle.t) (vehicleId : string) : string :=
  match find (λ v, bool_decide (Vehicle.id v = vehicleId)) vehicles with
  | Some v => orString (Vehicle.name v) "Unknown Vehicle"
  | None => "Unknown Vehicle"
  end.

Definition incompleteReminders (reminders : list Reminder.t) : list Reminder.t :=
  filter (λ r, Reminder.status r = incomplete) reminders.

Definition completedReminders (reminders : list Reminder.t) : list Reminder.t :=
  filter (λ r, Reminder.status r = complete) reminders.

Definition dueReminders (engine : JS.Engine) (vehicles : list Vehicle.t) (now : Z)
    (reminders : list Reminder.t) : list Reminder.t :=
  filter (λ r, isReminderDue engine vehicles now r = true)
    (incompleteReminders reminders).

End RemindersPanel.

(** ** FieldManager *)

Module FieldManager.

Record FormData : Type := mkFormData {
  name : string;
  type : FieldType;
  options : list DropdownOption.t;
  required : bool
}.

Record State : Type := mkState {
  showForm : bool;
  editingField : option CustomField.t;
  formData : FormData;
  newOption : string;
  newOptionColor : string;
  errors : gmap string string
}.

Definition emptyForm : FormData := mkFormData "" text [] false.

(** [setShowForm(false); resetForm()] *)
Definition closedForm : State :=
  mkState false None emptyForm "" "#6366f1" ∅.

Definition handleAddField : State :=
  mkState true None emptyForm "" "#6366f1" ∅.

Definition handleEditField (st : State) (field : CustomField.t) : State :=
  mkState true (Some field)
    (mkFormData (CustomField.name field) (CustomField.type field)
       (default [] (CustomField.options field)) (CustomField.required field))
    (newOption st) (newOptionColor st) (errors st).

(** [f.id !== editingField?.id] *)
Definition differsFromEditing (f : CustomField.t) (editing : option CustomField.t) : bool :=
  match editing with
  | Some e => negb (bool_decide (CustomField.id f = CustomField.id e))
  | None => true
  end.

(** The errors assigned by [validateForm], and its result. *)
Definition validateForm (fields : list CustomField.t) (st : State)
    : gmap string string * bool :=
  let fd := formData st in
  let newErrors : gmap string string := ∅ in
  let newErrors :=
    if negb (JS.truthyString (JS.trim (name fd))) then
      <["name" := "Field name is required"]> newErrors
    else if existsb (λ f,
              bool_decide (JS.toLowerCase (CustomField.name f) = JS.toLowerCase (name fd))
              && differsFromEditing f (editingField st)) fields then
      <["name" := "Field name already exists"]> newErrors
    else newErrors in
  let newErrors :=
    if bool_decide (type fd = dropdown) && bool_decide (length (options fd) = 0%nat) then
      <["options" := "At least one option is required for dropdown fields"]> newErrors
    else newErrors in
  (newErrors, bool_decide (size newErrors = 0%nat)).

(** [handleSubmit]: the component state afterwards and the field list the
    dashboard holds afterwards ([onUpdateFields] is its setter; it is not
    called when validation fails). *)
Definition handleSubmit (clock : Clock) (fields : list CustomField.t) (st : State)
    : State * list CustomField.t :=
  let '(newErrors, valid) := validateForm fields st in
  if negb valid then
    (mkState (showForm st) (editingField st) (formData st)
       (newOption st) (newOptionColor st) newErrors, fields)
  else
    let fd := formData st in
    let fieldData :=
      CustomField.mk
        (match editingField st with
         | Some e => orString (CustomField.id e) (Date_now_toString clock)
         | None => Date_now_toString clock
         end)
        (JS.trim (name fd))
        (type fd)
        (if bool_decide (type fd = dropdown) then Some (options fd) else None)
        (required fd) in
    (closedForm,
     match editingField st with
     | Some e =>
         (λ f, if bool_decide (CustomField.id f = CustomField.id e)
               then fieldData else f) <$> fields
     | None => fields ++ [fieldData]
     end).

Definition handleDeleteField (fields : list CustomField.t) (fieldId : string)
    : list CustomField.t :=
  filter (λ f, CustomField.id f ≠ fieldId) fields.

(** *** The option sub-list of the field form *)

(** [addOption]: the trimmed new option is appended unless it is blank or
    its value is already listed; the options error is then blanked. *)
Definition addOption (st : State) : State :=
  let value := JS.trim (newOption st) in
  if JS.truthyString value
     && negb (existsb (λ opt, bool_decide (DropdownOption.value opt = value))
                (options (formData st)))
  then
    mkState (showForm st) (editingField st)
      (mkFormData (name (formData st)) (type (formData st))
         (options (formData st) ++ [DropdownOption.mk value (Some (newOptionColor st))])
         (required (formData st)))
      "" "#6366f1"
      (match errors st !! "options"%string with
       | Some msg => if JS.truthyString msg
                     then <["options" := ""]> (errors st) else errors st
       | None => errors st
       end)
  else st.

Definition removeOption (st : State) (optionIndex : nat) : State :=
  mkState (showForm st) (editingField st)
    (mkFormData (name (formData st)) (type (formData st))
       (Builtins.removeAt optionIndex (options (formData st)))
       (required (formData st)))
    (newOption st) (newOptionColor st) (errors st).

End FieldManager.

(** ** VehicleForm *)

Module VehicleForm.

Record FormData : Type := mkFormData {
  name : string;
  status : VehicleStatus;
  mileage : Z;
  customFields : gmap string JS.Value;
  documents : list string
}.

Definition emptyForm : FormData := mkFormData "" available 0 ∅ [].

(** The form state once the effect on the [vehicle] prop has run. *)
Definition initialForm (vehicle : option Vehicle.t) : FormData :=
  match vehicle with
  | Some v =>
      mkFormData (Vehicle.name v) (Vehicle.status v) (Vehicle.mileage v)
        (Vehicle.customFields v) (Vehicle.documents v)
  | None => emptyForm
  end.

(** The key of a custom field's error: [`custom_${field.id}`]. *)
Definition customKey (field : CustomField.t) : string :=
  "custom_" +:+ CustomField.id field.

(** One round of the [forEach] over the schema. *)
Definition checkRequired (formData : FormData) (newErrors : gmap string string)
    (field : CustomField.t) : gmap string string :=
  if CustomField.required field
     && negb (JS.truthy (JS.getProp (customFields formData) (CustomField.name field)))
  then <[customKey field := CustomField.name field +:+ " is required"]> newErrors
  else newErrors.

(** The errors assigned by [validateForm], and its result. *)
Definition validateForm (schema : list CustomField.t) (formData : FormData)
    : gmap string string * bool :=
  let newErrors : gmap string string := ∅ in
  let newErrors :=
    if negb (JS.truthyString (JS.trim (name formData))) then
      <["name" := "Vehicle name is required"]> newErrors
    else newErrors in
  let newErrors :=
    if mileage formData <? 0 then
      <["mileage" := "Mileage cannot be negative"]> newErrors
    else newErrors in
  let newErrors := foldl (checkRequired formData) newErrors schema in
  (newErrors, bool_decide (size newErrors = 0%nat)).

(** The form data as the [Partial<Vehicle>] handed to [onSave]. *)
Definition toPartial (formData : FormData) : PartialVehicle.t :=
  PartialVehicle.mk None (Some (name formData)) (Some (status formData))
    (Some (mileage formData)) (Some (customFields formData))
    (Some (documents formData)) None None.

(** [handleSubmit]: the errors shown afterwards and the argument of the
    [onSave] call, if it is made. *)
Definition handleSubmit (schema : list CustomField.t) (formData : FormData)
    : gmap string string * option PartialVehicle.t :=
  let '(newErrors, valid) := validateForm schema formData in
  (newErrors, if valid then Some (toPartial formData) else None).

Definition handleCustomFieldChange (formData : FormData) (fieldName : string)
    (value : JS.Value) : FormData :=
  mkFormData (name formData) (status formData) (mileage formData)
    (<[fieldName := value]> (customFields formData)) (documents formData).

(** The error cleared by [handleCustomFieldChange]: that of the first field
    of the schema with the changed name, when it has an id and an error. *)
Definition clearCustomError (schema : list CustomField.t)
    (errors : gmap string string) (fieldName : string) : gmap string string :=
  match find (λ f, bool_decide (CustomField.name f = fieldName)) schema with
  | Some f =>
      if JS.truthyString (CustomField.id f)
         && JS.truthyString (default "" (errors !! customKey f))
      then delete (customKey f) errors
      else errors
  | None => errors
  end.

(** [`document_${Date.now()}.pdf`] *)
Definition newDocument (clock : Clock) : string :=
  "document_" +:+ Date_now_toString clock +:+ ".pdf".

Definition handleDocumentUpload (clock : Clock) (formData : FormData) : FormData :=
  mkFormData (name formData) (status formData) (mileage formData)
    (customFields formData) (documents formData ++ [newDocument clock]).

Definition removeDocument (formData : FormData) (docIndex : nat) : FormData :=
  mkFormData (name formData) (status formData) (mileage formData)
    (customFields formData) (Builtins.removeAt docIndex (documents formData)).

End VehicleForm.

(** ** FleetDashboard *)

Module FleetDashboard.

Record State : Type := mkState {
  vehicles : list Vehicle.t;
  customFields : list CustomField.t;
  reminders : list Reminder.t;
  showVehicleForm : bool;
  editingVehicle : option Vehicle.t
}.

Definition setVehicles (f : list Vehicle.t → list Vehicle.t) (st : State) : State :=
  mkState (f (vehicles st)) (customFields st) (reminders st)
    (showVehicleForm st) (editingVehicle st).

Definition setCustomFields (fields : list CustomField.t) (st : State) : State :=
  mkState (vehicles st) fields (reminders st)
    (showVehicleForm st) (editingVehicle st).

Definition setReminders (rs : list Reminder.t) (st : State) : State :=
  mkState (vehicles st) (customFields st) rs
    (showVehicleForm st) (editingVehicle st).

Definition handleAddVehicle (st : State) : State :=
  mkState (vehicles st) (customFields st) (reminders st) true None.

Definition handleEditVehicle (vehicle : Vehicle.t) (st : State) : State :=
  mkState (vehicles st) (customFields st) (reminders st) true (Some vehicle).

Definition onCancel (st : State) : State :=
  mkState (vehicles st) (customFields st) (reminders st) false None.

(** [{ ...v, ...vehicleData, lastUpdated, updatedBy }] *)
Definition spread (clock : Clock) (v : Vehicle.t) (vehicleData : PartialVehicle.t)
    : Vehicle.t :=
  Vehicle.mk
    (default (Vehicle.id v) (PartialVehicle.id vehicleData))
    (default (Vehicle.name v) (PartialVehicle.name vehicleData))
    (default (Vehicle.status v) (PartialVehicle.status vehicleData))
    (default (Vehicle.mileage v) (PartialVehicle.mileage vehicleData))
    (default (Vehicle.customFields v) (PartialVehicle.customFields vehicleData))
    (default (Vehicle.documents v) (PartialVehicle.documents vehicleData))
    (toLocaleString clock)
    "Current User".

Definition newVehicle (clock : Clock) (vehicleData : PartialVehicle.t) : Vehicle.t :=
  Vehicle.mk
    (Date_now_toString clock)
    (orString (default "" (PartialVehicle.name vehicleData)) "")
    (default available (PartialVehicle.status vehicleData))
    (orNumber (default 0 (PartialVehicle.mileage vehicleData)) 0)
    (default ∅ (PartialVehicle.customFields vehicleData))
    (default [] (PartialVehicle.documents vehicleData))
    (toLocaleString clock)
    "Current User".

Definition handleSaveVehicle (clock : Clock) (vehicleData : PartialVehicle.t)
    (st : State) : State :=
  mkState
    (match editingVehicle st with
     | Some editing =>
         (λ v, if bool_decide (Vehicle.id v = Vehicle.id editing)
               then spread clock v vehicleData else v) <$> vehicles st
     | None => vehicles st ++ [newVehicle clock vehicleData]
     end)
    (customFields st) (reminders st) false None.

Definition onDeleteVehicle (id : string) (st : State) : State :=
  setVehicles (filter (λ v, Vehicle.id v ≠ id)) st.

(** Submitting the vehicle form shown by the dashboard: the form validates
    against the dashboard's schema and calls [handleSaveVehicle] on success. *)
Definition submitVehicleForm (clock : Clock) (formData : VehicleForm.FormData)
    (st : State) : State :=
  match (VehicleForm.handleSubmit (customFields st) formData).2 with
  | Some vehicleData => handleSaveVehicle clock vehicleData st
  | None => st
  end.

(** Submitting the field form, and deleting a field, in the Fields tab
    ([onUpdateFields] is [setCustomFields]). *)
Definition submitFieldForm (clock : Clock) (form : FieldManager.State)
    (st : State) : State :=
  setCustomFields (FieldManager.handleSubmit clock (customFields st) form).2 st.

Definition removeField (fieldId : string) (st : State) : State :=
  setCustomFields (FieldManager.handleDeleteField (customFields st) fieldId) st.

(** [counts[k] || 0] on the counts object, whose keys are status strings. *)
Definition countOf (counts : gmap string Z) (k : string) : Z :=
  orNumber (default 0 (counts !! k)) 0.

Definition getStatusCounts (vehicles : list Vehicle.t) : gmap string Z :=
  foldl (λ counts vehicle,
           <[Builtins.statusString (Vehicle.status vehicle) :=
               countOf counts (Builtins.statusString (Vehicle.status vehicle)) + 1]>
             counts)
    ∅ vehicles.

Definition pendingReminders (reminders : list Reminder.t) : nat :=
  length (filter (λ r, Reminder.status r = incomplete) reminders).

End FleetDashboard.

(** ** VehicleList *)

Module VehicleList.

Section Filter.
(** [String(value)], the engine's conversion of a stored value. *)
Context (String_ : JS.Value → string).

Definition matchesSearch (searchTerm : string) (vehicle : Vehicle.t) : bool :=
  Builtins.includes (JS.toLowerCase (Vehicle.name vehicle)) (JS.toLowerCase searchTerm)
  || existsb (λ value,
                Builtins.includes (JS.toLowerCase (String_ value))
                  (JS.toLowerCase searchTerm))
       ((map_to_list (Vehicle.customFields vehicle)).*2).

Definition matchesStatus (statusFilter : string) (vehicle : Vehicle.t) : bool :=
  bool_decide (statusFilter = "all"%string)
  || bool_decide (Builtins.statusString (Vehicle.status vehicle) = statusFilter).

Definition filteredVehicles (searchTerm statusFilter : string)
    (vehicles : list Vehicle.t) : list Vehicle.t :=
  filter (λ vehicle, matchesSearch searchTerm vehicle
                     && matchesStatus statusFilter vehicle = true) vehicles.

End Filter.

End VehicleList.

(** ** Seed data and sessions *)

Module Mock.

Definition mockVehicles : list Vehicle.t :=
  [ Vehicle.mk "1" "Fleet Van 001" available 45670
      (<["vehicleType" := JS.VString "Cargo Van"]>
         (<["licensePlate" := JS.VString "ABC-123"]>
            (<["year" := JS.VNumber 2022]> ∅)))
      ["insurance.pdf"; "registration.pdf"]%string
      "2024-01-15 10:30" "John Smith";
    Vehicle.mk "2" "Fleet Van 002" in_use 38920
      (<["vehicleType" := JS.VString "Delivery Van"]>
         (<["licensePlate" := JS.VString "DEF-456"]>
            (<["year" := JS.VNumber 2021]> ∅)))
      ["insurance.pdf"]%string
      "2024-01-14 15:45" "Sarah Johnson";
    Vehicle.mk "3" "Fleet Truck 003" maintenance 67340
      (<["vehicleType" := JS.VString "Box Truck"]>
         (<["licensePlate" := JS.VString "GHI-789"]>
            (<["year" := JS.VNumber 2020]> ∅)))
      ["insurance.pdf"; "maintenance_log.pdf"]%string
      "2024-01-13 09:15" "Mike Wilson" ].

(** The seed schema lists its options as bare strings; they are the option
    values here, without a color. *)
Definition plain (value : string) : DropdownOption.t := DropdownOption.mk value None.

Definition licensePlate : CustomField.t :=
  CustomField.mk "2" "License Plate" text None true.

Definition mockFields : list CustomField.t :=
  [ CustomField.mk "1" "Vehicle Type" dropdown
      (Some (plain <$> ["Cargo Van"; "Delivery Van"; "Box Truck"; "Pickup Truck"]%string))
      true;
    licensePlate;
    CustomField.mk "3" "Year" number None false;
    CustomField.mk "4" "Fuel Type" dropdown
      (Some (plain <$> ["Gasoline"; "Diesel"; "Electric"; "Hybrid"]%string))
      false ].

Definition annualInspection : Reminder.t :=
  Reminder.mk "1" "1" "Annual inspection due" date (TVString "2024-02-15")
    incomplete None None.

Definition oilChange : Reminder.t :=
  Reminder.mk "2" "2" "Oil change required" mileage (TVNumber 40000)
    incomplete None None.

Definition brakeInspection : Reminder.t :=
  Reminder.mk "3" "3" "Brake inspection" date (TVString "2024-01-20")
    complete (Some "2024-01-18 14:30"%string) (Some "Mike Wilson"%string).

Definition mockReminders : list Reminder.t :=
  [ annualInspection; oilChange; brakeInspection ].

Definition initial : FleetDashboard.State :=
  FleetDashboard.mkState mockVehicles mockFields mockReminders false None.

End Mock.

Module Session.
Import FleetDashboard.

(** One user action on the dashboard. The forms' contents are whatever the
    user typed; the reminders panel hands the dashboard a new reminder list. *)
Inductive step : State → State → Prop :=
| step_add_vehicle st :
    step st (handleAddVehicle st)
| step_edit_vehicle st v :
    v ∈ vehicles st → step st (handleEditVehicle v st)
| step_cancel st :
    step st (onCancel st)
| step_submit_vehicle clock formData st :
    showVehicleForm st = true → step st (submitVehicleForm clock formData st)
| step_delete_vehicle id st :
    step st (onDeleteVehicle id st)
| step_submit_field clock form st :
    step st (submitFieldForm clock form st)
| step_remove_field fieldId st :
    step st (removeField fieldId st)
| step_update_reminders rs st :
    step st (setReminders rs st).

Definition reachable (st : State) : Prop := rtc step Mock.initial st.

End Session.

(** ** Predicates used in the statements *)

(** Two field names are equal up to case. *)
Definition sameNameIgnoringCase (a b : string) : Prop :=
  JS.toLowerCase a = JS.toLowerCase b.

(** No two fields of the schema, at different positions, share a name up
    to case. *)
Definition namesUniqueIgnoringCase (fields : list CustomField.t) : Prop :=
  ∀ i j f g, fields !! i = Some f → fields !! j = Some g → i ≠ j →
    ¬ sameNameIgnoringCase (CustomField.name f) (CustomField.name g).

(** Every dropdown field carries at least one option. *)
Definition dropdownHasOption (f : CustomField.t) : Prop :=
  CustomField.type f = dropdown →
  ∃ opts, CustomField.options f = Some opts ∧ (1 ≤ length opts)%nat.

Definition mileageNonNegative (v : Vehicle.t) : Prop := 0 ≤ Vehicle.mileage v.

(** The vehicle a reminder refers to: the first one with its id. *)
Definition referencedVehicle (vehicles : list Vehicle.t) (vehicleId : string)
    : option Vehicle.t :=
  find (λ v, bool_decide (Vehicle.id v = vehicleId)) vehicles.

(** Some host engine, for evaluating the model on concrete inputs: it
    reads nothing beyond the date-only form. *)
Definition plainEngine : JS.Engine :=
  {| JS.Date_parse_other := λ _, None; JS.StringToNumber := λ _, None |}.

(** A date reminder is due exactly when the calendar day its date-only
    trigger value names is not after today, today being the calendar day of
    the instant [now] in the zone [tza] milliseconds ahead of UTC. *)
Definition dueExactlyByCalendarDay (engine : JS.Engine) (vehicles : list Vehicle.t)
    (tza now : Z) (r : Reminder.t) : Prop :=
  ∀ s d, Reminder.triggerValue r = TVString s → JS.dayOfDateOnly s = Some d →
    (RemindersPanel.isReminderDue engine vehicles now r = true ↔ d ≤ JS.localDay tza now).

(** Completing the reminder at position [i] again, by its id, keeps its
    completion stamp. *)
Definition recompleteKeepsStamp (clock : Clock) (reminders : list Reminder.t)
    (i : nat) : Prop :=
  ∀ r, reminders !! i = Some r → Reminder.status r = complete →
    ∃ r', RemindersPanel.handleCompleteReminder clock reminders (Reminder.id r) !! i = Some r'
          ∧ Reminder.completedAt r' = Reminder.completedAt r
          ∧ Reminder.completedBy r' = Reminder.completedBy r.

(** Time values used in the examples. *)
Definition hours (h : Z) : Z := h * 3600000.
Definition atUTC (day h : Z) : Z := day * JS.msPerDay + hours h.

(** The reminder as [handleCompleteReminder] rewrites it. *)
Definition stamped (clock : Clock) (r : Reminder.t) : Reminder.t :=
  Reminder.mk (Reminder.id r) (Reminder.vehicleId r) (Reminder.description r)
    (Reminder.triggerType r) (Reminder.triggerValue r)
    complete (Some (toLocaleString clock)) (Some "Current User"%string).

(** A clock reading of the morning of 25 January 2024. *)
Definition laterClock : Clock :=
  {| Date_now := 1706173200000; toLocaleString := "1/25/2024, 9:00:00 AM" |}.

(** The value the vehicle form's validator reads for a field is falsy. *)
Definition valueMissing (formData : VehicleForm.FormData) (field : CustomField.t) : Prop :=
  JS.truthy (JS.getProp (VehicleForm.customFields formData) (CustomField.name field))
  = false.


(** The errors of the vehicle form before the loop over the schema. *)
Definition baseErrors (formData : VehicleForm.FormData) : gmap string string :=
  let e : gmap string string :=
    if negb (JS.truthyString (JS.trim (VehicleForm.name formData)))
    then <["name" := "Vehicle name is required"]> ∅ else ∅ in
  if VehicleForm.mileage formData <? 0
  then <["mileage" := "Mileage cannot be negative"]> e else e.


(** An edit of a new vehicle with nothing entered but name and mileage. *)
Definition vanA : VehicleForm.FormData :=
  VehicleForm.mkFormData "Van A" available 100 ∅ [].

(** The field form as the user left it: adding a text field named
    "license plate" followed by a space. *)
Definition trailingSpaceForm : FieldManager.State :=
  FieldManager.mkState true None
    (FieldManager.mkFormData "license plate " text [] false) "" "#6366f1" ∅.

(** The field form when adding a dropdown without any option. *)
Definition emptyDropdownForm : FieldManager.State :=
  FieldManager.mkState true None
    (FieldManager.mkFormData "Colour" dropdown [] false) "" "#6366f1" ∅.

(** The field form when adding a text field named "license plate". *)
Definition lowerCaseForm : FieldManager.State :=
  FieldManager.mkState true None
    (FieldManager.mkFormData "license plate" text [] false) "" "#6366f1" ∅.

(** A reminder's trigger value has the type its trigger type asks for: a
    positive number for a mileage trigger, a string denoting a valid date
    for a date trigger. *)
Definition wellTriggered (engine : JS.Engine) (r : Reminder.t) : Prop :=
  match Reminder.triggerType r, Reminder.triggerValue r with
  | mileage, TVNumber n => 0 < n
  | date, TVString s => is_Some (JS.Date_parse engine s)
  | _, _ => False
  end.

(** What the reminder form requires of its trigger value, by trigger type. *)
Definition triggerAccepted (engine : JS.Engine) (ty : TriggerType) (v : string) : Prop :=
  match ty with
  | mileage => ∃ n, JS.StringToNumber engine v = Some n ∧ 0 < n
  | date => is_Some (JS.Date_parse engine v)
  end.

(** An engine that reads decimal digits as a number, for the examples. *)
Definition digitsEngine : JS.Engine :=
  {| JS.Date_parse_other := λ _, None;
     JS.StringToNumber := λ s,
       (fix go (acc : Z) (s : string) : option Z :=
          match s with
          | EmptyString => Some acc
          | String c s' => d ← JS.digit c; go (10 * acc + d) s'
          end) 0 s |}.

(** The reminder form filled in for a new oil-change reminder at 50000. *)
Definition newOilChangeForm : RemindersPanel.State :=
  RemindersPanel.mkState true None
    (RemindersPanel.mkFormData "1" " Oil change " mileage "50000") ∅.

(** The reminder form opened on the seed brake inspection, with the
    description changed. *)
Definition editBrakeForm : RemindersPanel.State :=
  RemindersPanel.mkState true (Some Mock.brakeInspection)
    (RemindersPanel.mkFormData "3" "Brake inspection (rear)" date "2024-01-20") ∅.

(** The options a saved field of a given type carries: a non-empty list
    for a dropdown, none otherwise. *)
Definition optionsFitType (f : CustomField.t) : Prop :=
  match CustomField.type f with
  | dropdown => ∃ opts, CustomField.options f = Some opts ∧ opts ≠ []
  | _ => CustomField.options f = None
  end.

(** The field form right after the edit button of a field was pressed. *)
Definition editOf (field : CustomField.t) : FieldManager.State :=
  FieldManager.handleEditField FieldManager.closedForm field.

(** The test of the field form for a name already in use: some other
    field carries the typed name, up to case. *)
Definition nameTaken (fields : list CustomField.t) (st : FieldManager.State) : bool :=
  existsb (λ f,
    bool_decide (JS.toLowerCase (CustomField.name f)
                 = JS.toLowerCase (FieldManager.name (FieldManager.formData st)))
    && FieldManager.differsFromEditing f (FieldManager.editingField st)) fields.

(** The field form when adding a text field named "VIN". *)
Definition vinForm : FieldManager.State :=
  FieldManager.mkState true None
    (FieldManager.mkFormData "VIN" text [] false) "" "#6366f1" ∅.

(** The field form with "Red" typed, padded, as a new option of a dropdown
    that lists "Blue". *)
Definition redOptionForm : FieldManager.State :=
  FieldManager.mkState true None
    (FieldManager.mkFormData "Colour" dropdown
       [DropdownOption.mk "Blue" (Some "#0000ff"%string)] false)
    " Red " "#ff0000" ∅.

(** The vehicle with its audit fields set by a save. *)
Definition touched (clock : Clock) (v : Vehicle.t) : Vehicle.t :=
  Vehicle.mk (Vehicle.id v) (Vehicle.name v) (Vehicle.status v) (Vehicle.mileage v)
    (Vehicle.customFields v) (Vehicle.documents v)
    (toLocaleString clock) "Current User".

(** The first seed vehicle, and the dashboard with its edit form open. *)
Definition van001 : Vehicle.t :=
  Vehicle.mk "1" "Fleet Van 001" available 45670
    (<["vehicleType" := JS.VString "Cargo Van"]>
       (<["licensePlate" := JS.VString "ABC-123"]>
          (<["year" := JS.VNumber 2022]> ∅)))
    ["insurance.pdf"; "registration.pdf"]%string
    "2024-01-15 10:30" "John Smith".

Definition editingVan001 : FleetDashboard.State :=
  FleetDashboard.handleEditVehicle van001 Mock.initial.

(** An edit with the two required seed fields filled in. *)
Definition vanB : VehicleForm.FormData :=
  VehicleForm.mkFormData "Van B" available 120
    (<["Vehicle Type" := JS.VString "Cargo Van"]>
       (<["License Plate" := JS.VString "JKL-012"]> ∅)) [].






(** * Properties *)

(** ** Reminder due-state *)

Section DueState.
Import RemindersPanel.
Context (engine : JS.Engine) (vehicles : list Vehicle.t) (now : Z).

Lemma isReminderDue_complete (r : Reminder.t) :
  Reminder.status r = complete → isReminderDue engine vehicles now r = false.
Proof.
  intros Hst. unfold isReminderDue.
  by rewrite bool_decide_eq_true_2.
Qed.

Lemma isReminderDue_date (r : Reminder.t) :
  Reminder.status r = incomplete → Reminder.triggerType r = date →
  isReminderDue engine vehicles now r
  = JS.Date_le (new_Date engine (Reminder.triggerValue r)) (Some now).
Proof.
  intros Hst Hty. unfold isReminderDue.
  rewrite bool_decide_eq_false_2; [|by rewrite Hst].
  by rewrite bool_decide_eq_true_2.
Qed.

Lemma isReminderDue_mileage (r : Reminder.t) :
  Reminder.status r = incomplete → Reminder.triggerType r = mileage →
  isReminderDue engine vehicles now r
  = Number_ge engine (getCurrentMileage vehicles (Reminder.vehicleId r))
      (Reminder.triggerValue r).
Proof.
  intros Hst Hty. unfold isReminderDue.
  rewrite bool_decide_eq_false_2; [|by rewrite Hst].
  by rewrite bool_decide_eq_false_2; [|by rewrite Hty].
Qed.

(** The [|| 0] of [getCurrentMileage] changes nothing on a found vehicle:
    the only falsy mileage is 0 itself. *)
Lemma getCurrentMileage_spec (vehicleId : string) :
  getCurrentMileage vehicles vehicleId
  = match referencedVehicle vehicles vehicleId with
    | Some v => Vehicle.mileage v
    | None => 0
    end.
Proof.
  unfold getCurrentMileage, referencedVehicle.
  destruct (find _ vehicles) as [v|]; [|done].
  unfold orNumber. destruct (Z.eqb_spec (Vehicle.mileage v) 0); congruence.
Qed.

Lemma Date_le_true (a : option Z) (t : Z) :
  JS.Date_le a (Some t) = true ↔ ∃ x, a = Some x ∧ x ≤ t.
Proof.
  destruct a as [x|]; simpl.
  - rewrite Z.leb_le. split; [eauto|]. by intros (? & [= <-] & ?).
  - split; [done|]. by intros (? & ? & _).
Qed.

Lemma day_le_utcDay (d t : Z) : d * JS.msPerDay ≤ t ↔ d ≤ JS.utcDay t.
Proof.
  unfold JS.utcDay, JS.msPerDay.
  pose proof (Z.div_mod t 86400000 ltac:(lia)) as Hdiv.
  pose proof (Z.mod_pos_bound t 86400000 ltac:(lia)) as Hmod.
  lia.
Qed.

End DueState.

(** C3. A reminder whose status is complete is never due, whatever its
    trigger type and value, the current instant and the vehicles. *)
Theorem complete_reminder_never_due (engine : JS.Engine) (vehicles : list Vehicle.t)
    (now : Z) (r : Reminder.t) :
  Reminder.status r = complete →
  RemindersPanel.isReminderDue engine vehicles now r = false.
Proof. apply isReminderDue_complete. Qed.

Lemma complete_reminder_never_due_witness :
  Reminder.status Mock.brakeInspection = complete
  ∧ RemindersPanel.isReminderDue plainEngine Mock.mockVehicles (atUTC 19768 9)
      Mock.brakeInspection = false.
Proof.
  split; [reflexivity|].
  apply (complete_reminder_never_due plainEngine Mock.mockVehicles (atUTC 19768 9)
           Mock.brakeInspection).
  reflexivity.
Defined.

Lemma mileage_due_iff_referenced (engine : JS.Engine) (vehicles : list Vehicle.t)
    (now : Z) (r : Reminder.t) (n : Z) :
  Reminder.status r = incomplete →
  Reminder.triggerType r = mileage →
  Reminder.triggerValue r = TVNumber n →
  (RemindersPanel.isReminderDue engine vehicles now r = true
   ↔ n ≤ match referencedVehicle vehicles (Reminder.vehicleId r) with
         | Some v => Vehicle.mileage v
         | None => 0
         end).
Proof.
  intros Hst Hty Hval.
  rewrite isReminderDue_mileage by done.
  rewrite Hval, getCurrentMileage_spec. simpl.
  by rewrite Z.geb_le.
Qed.

(** C2. An incomplete mileage reminder with numeric threshold [n] is due
    exactly when the mileage of the referenced vehicle is at least [n];
    when no vehicle has the referenced id the mileage counts as 0, so the
    reminder is due exactly when [n <= 0]. *)
Theorem mileage_reminder_due_iff (engine : JS.Engine) (vehicles : list Vehicle.t)
    (now : Z) (r : Reminder.t) (n : Z) :
  Reminder.status r = incomplete →
  Reminder.triggerType r = mileage →
  Reminder.triggerValue r = TVNumber n →
  (RemindersPanel.isReminderDue engine vehicles now r = true
   ↔ match referencedVehicle vehicles (Reminder.vehicleId r) with
     | Some v => n ≤ Vehicle.mileage v
     | None => n ≤ 0
     end).
Proof.
  intros Hst Hty Hval.
  rewrite mileage_due_iff_referenced by done.
  by destruct (referencedVehicle _ _).
Qed.

Lemma mileage_reminder_due_iff_witness :
  RemindersPanel.isReminderDue plainEngine Mock.mockVehicles (atUTC 19768 9)
    Mock.oilChange = true
  ↔ match referencedVehicle Mock.mockVehicles (Reminder.vehicleId Mock.oilChange) with
    | Some v => 40000 ≤ Vehicle.mileage v
    | None => 40000 ≤ 0
    end.
Proof.
  apply (mileage_reminder_due_iff plainEngine Mock.mockVehicles (atUTC 19768 9)
           Mock.oilChange 40000); reflexivity.
Defined.

(** The two readings of the odometer in the oil-change scenario. *)
Example oil_change_scenario :
  let r := Reminder.mk "2" "2" "Oil change required" mileage (TVNumber 40000)
             incomplete None None in
  let van m := Vehicle.mk "2" "Fleet Van 002" in_use m ∅ [] "" "" in
  RemindersPanel.isReminderDue plainEngine [van 38920] 0 r = false
  ∧ RemindersPanel.isReminderDue plainEngine [van 40000] 0 r = true
  ∧ RemindersPanel.isReminderDue plainEngine [] 0 r = false.
Proof. by vm_compute. Qed.

(** C1, as stated, fails. The seed reminder for 2024-02-15 is read as
    midnight UTC of that day. In a zone nine hours ahead of UTC, at 03:00
    local time on 2024-02-15 (18:00 UTC the day before) the trigger day is
    today and yet the reminder is not due; at 10:00 local time the same
    day it is due. The engine is not consulted for a date-only value. *)
Lemma date_due_not_by_local_calendar_day :
  let r := Mock.annualInspection in
  let tza := hours 9 in
  let early := atUTC 19767 18 in
  let late := atUTC 19768 1 in
  ¬ dueExactlyByCalendarDay plainEngine Mock.mockVehicles tza early r
  ∧ JS.localDay tza early = JS.localDay tza late
  ∧ RemindersPanel.isReminderDue plainEngine Mock.mockVehicles early r = false
  ∧ RemindersPanel.isReminderDue plainEngine Mock.mockVehicles late r = true.
Proof.
  assert (RemindersPanel.isReminderDue plainEngine Mock.mockVehicles
            (atUTC 19767 18) Mock.annualInspection = false) as Hearly
    by (vm_compute; reflexivity).
  split; [|split; [|split]].
  - intros H. destruct (H "2024-02-15"%string 19768 eq_refl eq_refl) as [_ Hdue].
    rewrite Hearly in Hdue.
    assert (19768 ≤ JS.localDay (hours 9) (atUTC 19767 18)) as Hday
      by (vm_compute; discriminate).
    specialize (Hdue Hday). discriminate Hdue.
  - vm_compute; reflexivity.
  - exact Hearly.
  - vm_compute; reflexivity.
Qed.

(** C1, amended. An incomplete date reminder is due exactly when its
    trigger value denotes a valid instant that is not after the current
    instant. For a date-only trigger value, which denotes midnight UTC of
    its day, that is exactly when that day is not after the current UTC
    calendar day, so within a UTC day the time of day does not matter. *)
Theorem date_reminder_due_iff (engine : JS.Engine) (vehicles : list Vehicle.t)
    (now : Z) (r : Reminder.t) :
  Reminder.status r = incomplete →
  Reminder.triggerType r = date →
  (RemindersPanel.isReminderDue engine vehicles now r = true
   ↔ ∃ t, RemindersPanel.new_Date engine (Reminder.triggerValue r) = Some t ∧ t ≤ now)
  ∧ (∀ s d, Reminder.triggerValue r = TVString s → JS.dayOfDateOnly s = Some d →
       (RemindersPanel.isReminderDue engine vehicles now r = true ↔ d ≤ JS.utcDay now)).
Proof.
  intros Hst Hty.
  rewrite isReminderDue_date by done. split.
  - apply Date_le_true.
  - intros s d Hval Hday. rewrite Hval. simpl.
    unfold JS.Date_parse. rewrite Hday. simpl.
    rewrite Z.leb_le. apply day_le_utcDay.
Qed.

Lemma date_reminder_due_iff_witness :
  RemindersPanel.isReminderDue plainEngine Mock.mockVehicles (atUTC 19767 18)
    Mock.annualInspection = true
  ↔ 19768 ≤ JS.utcDay (atUTC 19767 18).
Proof.
  apply (proj2 (date_reminder_due_iff plainEngine Mock.mockVehicles (atUTC 19767 18)
                  Mock.annualInspection eq_refl eq_refl) "2024-02-15"%string 19768).
  - reflexivity.
  - vm_compute; reflexivity.
Defined.

(** ** Completing a reminder *)

Section Completion.
Import RemindersPanel.
Context (clock : Clock) (reminders : list Reminder.t).

Lemma handleCompleteReminder_lookup (reminderId : string) (i : nat) :
  handleCompleteReminder clock reminders reminderId !! i
  = (λ r, if bool_decide (Reminder.id r = reminderId) then stamped clock r else r)
      <$> reminders !! i.
Proof. unfold handleCompleteReminder. by rewrite list_lookup_fmap. Qed.

Lemma stamped_idem (r : Reminder.t) : stamped clock (stamped clock r) = stamped clock r.
Proof. reflexivity. Qed.

(** With unique ids, two entries with the same id are the same entry. *)
Lemma unique_id_same_entry (i j : nat) (r r' : Reminder.t) :
  NoDup (Reminder.id <$> reminders) →
  reminders !! i = Some r → reminders !! j = Some r' →
  Reminder.id r = Reminder.id r' → r = r'.
Proof.
  intros Hnd Hi Hj Hid.
  assert (i = j) as ->; [|congruence].
  eapply (NoDup_lookup _ i j (Reminder.id r) Hnd); rewrite list_lookup_fmap.
  - by rewrite Hi.
  - by rewrite Hj, Hid.
Qed.

End Completion.

(** C8, as stated, fails. The seed reminder "Brake inspection" is complete,
    stamped '2024-01-18 14:30' by 'Mike Wilson'; completing it again on
    25 January replaces both the time and the user. *)
Lemma recomplete_overwrites_stamp :
  ¬ recompleteKeepsStamp laterClock Mock.mockReminders 2
  ∧ RemindersPanel.handleCompleteReminder laterClock Mock.mockReminders "3" !! 2%nat
    = Some (Reminder.mk "3" "3" "Brake inspection" date (TVString "2024-01-20")
              complete (Some "1/25/2024, 9:00:00 AM"%string)
              (Some "Current User"%string)).
Proof.
  split; [|reflexivity].
  intros H. destruct (H Mock.brakeInspection eq_refl eq_refl) as (r' & Hr' & Hat & _).
  vm_compute in Hr'. injection Hr' as <-. discriminate Hat.
Qed.

(** C8, amended. [handleCompleteReminder] rewrites every reminder carrying
    the given id, whatever its status: the status becomes complete and the
    stamp becomes the current clock reading and 'Current User'; every other
    reminder is kept. Re-applying it with the same clock reading changes
    nothing more. The reminder card offers the action only for an incomplete
    reminder, so when ids are unique a click leaves every complete reminder
    of the list as it is. *)
Theorem complete_stamps_matching_reminders (clock : Clock)
    (reminders : list Reminder.t) (reminderId : string) :
  (∀ i r, reminders !! i = Some r →
     RemindersPanel.handleCompleteReminder clock reminders reminderId !! i
     = Some (if bool_decide (Reminder.id r = reminderId) then stamped clock r else r))
  ∧ RemindersPanel.handleCompleteReminder clock
      (RemindersPanel.handleCompleteReminder clock reminders reminderId) reminderId
    = RemindersPanel.handleCompleteReminder clock reminders reminderId
  ∧ (∀ card rs' i r,
       NoDup (Reminder.id <$> reminders) →
       card ∈ reminders →
       RemindersPanel.ReminderCard_onComplete clock reminders card = Some rs' →
       reminders !! i = Some r → Reminder.status r = complete →
       rs' !! i = Some r).
Proof.
  split; [|split].
  - intros i r Hi. by rewrite handleCompleteReminder_lookup, Hi.
  - unfold RemindersPanel.handleCompleteReminder.
    rewrite <-list_fmap_compose. apply list_fmap_ext.
    intros _ r _. simpl.
    destruct (bool_decide (Reminder.id r = reminderId)) eqn:Hid; simpl;
      by rewrite Hid.
  - intros card rs' i r Hnd Hcard Hclick Hi Hst.
    unfold RemindersPanel.ReminderCard_onComplete in Hclick.
    case_bool_decide as Hinc; [|done]. injection Hclick as <-.
    rewrite handleCompleteReminder_lookup, Hi. simpl.
    rewrite bool_decide_eq_false_2; [done|].
    intros Hid. apply list_elem_of_lookup in Hcard as [j Hj].
    assert (r = card) as -> by eauto using unique_id_same_entry.
    congruence.
Qed.

Lemma complete_stamps_matching_reminders_witness :
  RemindersPanel.ReminderCard_onComplete laterClock Mock.mockReminders Mock.oilChange
  = Some [ Mock.annualInspection; stamped laterClock Mock.oilChange; Mock.brakeInspection ]
  ∧ [ Mock.annualInspection; stamped laterClock Mock.oilChange; Mock.brakeInspection ]
      !! 2%nat = Some Mock.brakeInspection.
Proof.
  split; [reflexivity|].
  apply (proj2 (proj2 (complete_stamps_matching_reminders laterClock Mock.mockReminders "2"))
           Mock.oilChange _ 2%nat Mock.brakeInspection).
  - apply (bool_decide_unpack _). by vm_compute.
  - unfold Mock.mockReminders. set_solver.
  - reflexivity.
  - reflexivity.
  - reflexivity.
Defined.

(** ** Deleting a vehicle, removing a field *)

Lemma find_filter_id_None (vehicles : list Vehicle.t) (id : string) :
  referencedVehicle (filter (λ v, Vehicle.id v ≠ id) vehicles) id = None.
Proof.
  unfold referencedVehicle.
  induction vehicles as [|v vs IH]; [done|].
  rewrite filter_cons. case_decide as Hne; [|done].
  simpl. by rewrite bool_decide_eq_false_2.
Qed.

(** C10. Deleting a vehicle keeps exactly the vehicles with another id and
    leaves the reminder list (and the schema) as it was, so every reminder
    that referred to the vehicle is still there, unchanged. From then on
    such a reminder sees mileage 0: an incomplete mileage reminder for the
    deleted id with threshold [n] is due exactly when [n <= 0]. *)
Theorem delete_vehicle_keeps_reminders (id : string) (st : FleetDashboard.State) :
  let st' := FleetDashboard.onDeleteVehicle id st in
  FleetDashboard.reminders st' = FleetDashboard.reminders st
  ∧ FleetDashboard.customFields st' = FleetDashboard.customFields st
  ∧ FleetDashboard.vehicles st' `sublist_of` FleetDashboard.vehicles st
  ∧ (∀ v, v ∈ FleetDashboard.vehicles st'
          ↔ v ∈ FleetDashboard.vehicles st ∧ Vehicle.id v ≠ id)
  ∧ RemindersPanel.getCurrentMileage (FleetDashboard.vehicles st') id = 0
  ∧ (∀ engine now r n,
       r ∈ FleetDashboard.reminders st' →
       Reminder.vehicleId r = id →
       Reminder.status r = incomplete →
       Reminder.triggerType r = mileage →
       Reminder.triggerValue r = TVNumber n →
       (RemindersPanel.isReminderDue engine (FleetDashboard.vehicles st') now r = true
        ↔ n ≤ 0)).
Proof.
  simpl. split; [done|]. split; [done|]. split; [|split; [|split]].
  - apply sublist_filter.
  - intros v. rewrite list_elem_of_filter. tauto.
  - by rewrite getCurrentMileage_spec, find_filter_id_None.
  - intros engine now r n _ Hid Hst Hty Hval.
    rewrite mileage_due_iff_referenced by done.
    by rewrite Hid, find_filter_id_None.
Qed.

(** Deleting the seed vehicle "2" leaves the oil-change reminder in place,
    and it is no longer due at any odometer reading. *)
Example delete_van_002 :
  let st' := FleetDashboard.onDeleteVehicle "2" Mock.initial in
  Vehicle.id <$> FleetDashboard.vehicles st' = ["1"; "3"]%string
  ∧ FleetDashboard.reminders st' = Mock.mockReminders
  ∧ RemindersPanel.isReminderDue plainEngine (FleetDashboard.vehicles st') 0
      Mock.oilChange = false.
Proof. by vm_compute. Qed.

(** C9. Removing a field always yields a state: the schema becomes the
    original without the fields carrying that id, in the original order,
    and the vehicle list (and the reminder list) is the same list, so
    every vehicle still holds every custom-field value it held, also under
    the name of a removed field. *)
Theorem remove_field_keeps_vehicles (fieldId : string) (st : FleetDashboard.State) :
  let st' := FleetDashboard.removeField fieldId st in
  FleetDashboard.customFields st'
  = filter (λ f, CustomField.id f ≠ fieldId) (FleetDashboard.customFields st)
  ∧ (∀ f, f ∈ FleetDashboard.customFields st'
          ↔ f ∈ FleetDashboard.customFields st ∧ CustomField.id f ≠ fieldId)
  ∧ FleetDashboard.customFields st' `sublist_of` FleetDashboard.customFields st
  ∧ FleetDashboard.vehicles st' = FleetDashboard.vehicles st
  ∧ FleetDashboard.reminders st' = FleetDashboard.reminders st
  ∧ (∀ i v f, FleetDashboard.vehicles st !! i = Some v →
       f ∈ FleetDashboard.customFields st → CustomField.id f = fieldId →
       ∃ v', FleetDashboard.vehicles st' !! i = Some v'
             ∧ Vehicle.customFields v' !! CustomField.name f
               = Vehicle.customFields v !! CustomField.name f).
Proof.
  simpl. split; [done|]. split; [|split; [|split; [done|split; [done|]]]].
  - intros f. unfold FieldManager.handleDeleteField.
    rewrite list_elem_of_filter. tauto.
  - apply sublist_filter.
  - intros i v f Hi _ _. eauto.
Qed.

(** Removing the seed field "Year" (id 3) on a fleet whose first van has a
    value stored under that name. *)
Example remove_year_field :
  let van := Vehicle.mk "1" "Fleet Van 001" available 45670
               (<["Year" := JS.VNumber 2022]> ∅) [] "" "" in
  let st := FleetDashboard.mkState [van] Mock.mockFields [] false None in
  let st' := FleetDashboard.removeField "3" st in
  CustomField.name <$> FleetDashboard.customFields st'
  = ["Vehicle Type"; "License Plate"; "Fuel Type"]%string
  ∧ FleetDashboard.vehicles st' = [van]
  ∧ JS.getProp (Vehicle.customFields van) "Year" = JS.VNumber 2022.
Proof. by vm_compute. Qed.

(** Induction over the states of a session. *)
Lemma reachable_ind (P : FleetDashboard.State → Prop) :
  P Mock.initial →
  (∀ st st', Session.reachable st → Session.step st st' → P st → P st') →
  ∀ st, Session.reachable st → P st.
Proof.
  intros Hinit Hstep st Hreach.
  exact (rtc_ind_r P Mock.initial Hinit Hstep st Hreach).
Qed.

(** ** Vehicle form validation *)

Section VehicleFormValidation.
Import VehicleForm.
Context (formData : FormData).

Lemma customKey_not_base (field : CustomField.t) :
  customKey field ≠ "name"%string ∧ customKey field ≠ "mileage"%string.
Proof. unfold customKey. simpl. split; discriminate. Qed.




Lemma checkRequired_keeps_other (errs : gmap string string) (field : CustomField.t)
    (k : string) :
  customKey field ≠ k → checkRequired formData errs field !! k = errs !! k.
Proof.
  intros Hne. unfold checkRequired.
  destruct (_ && _); [|done]. by rewrite lookup_insert_ne.
Qed.

(** Keys that are no custom key pass through the loop untouched. *)
Lemma forEach_keeps_base (schema : list CustomField.t) (errs : gmap string string)
    (k : string) :
  (∀ field, customKey field ≠ k) →
  foldl (checkRequired formData) errs schema !! k = errs !! k.
Proof.
  intros Hk. revert errs.
  induction schema as [|f fs IH]; intros errs; [done|].
  simpl. rewrite IH. by apply checkRequired_keeps_other.
Qed.





End VehicleFormValidation.

Lemma size_zero_lookup (errs : gmap string string) (k : string) :
  is_Some (errs !! k) → bool_decide (size errs = 0%nat) = false.
Proof.
  intros [msg Hk]. apply bool_decide_eq_false_2. intros Hsize.
  apply map_size_empty_inv in Hsize. by rewrite Hsize, lookup_empty in Hk.
Qed.

Lemma validateForm_unfold (schema : list CustomField.t) (fd : VehicleForm.FormData) :
  VehicleForm.validateForm schema fd
  = (foldl (VehicleForm.checkRequired fd) (baseErrors fd) schema,
     bool_decide (size (foldl (VehicleForm.checkRequired fd) (baseErrors fd) schema) = 0%nat)).
Proof. reflexivity. Qed.

Lemma handleSubmit_unfold (schema : list CustomField.t) (fd : VehicleForm.FormData) :
  VehicleForm.handleSubmit schema fd
  = ((VehicleForm.validateForm schema fd).1,
     if (VehicleForm.validateForm schema fd).2
     then Some (VehicleForm.toPartial fd) else None).
Proof. unfold VehicleForm.handleSubmit. by destruct (VehicleForm.validateForm _ _). Qed.


Lemma baseErrors_mileage (fd : VehicleForm.FormData) :
  VehicleForm.mileage fd < 0 →
  baseErrors fd !! "mileage"%string = Some "Mileage cannot be negative"%string.
Proof.
  intros Hneg. unfold baseErrors.
  destruct (Z.ltb_spec (VehicleForm.mileage fd) 0); [|lia].
  by rewrite lookup_insert_eq.
Qed.

Lemma validateForm_mileage (schema : list CustomField.t) (fd : VehicleForm.FormData) :
  VehicleForm.mileage fd < 0 →
  (VehicleForm.validateForm schema fd).1 !! "mileage"%string
  = Some "Mileage cannot be negative"%string
  ∧ (VehicleForm.validateForm schema fd).2 = false.
Proof.
  intros Hneg. rewrite validateForm_unfold. simpl.
  assert (foldl (VehicleForm.checkRequired fd) (baseErrors fd) schema !! "mileage"%string
          = Some "Mileage cannot be negative"%string) as Hlook.
  { rewrite forEach_keeps_base; [by apply baseErrors_mileage|].
    intros f. apply customKey_not_base. }
  split; [done|]. eapply size_zero_lookup. by rewrite Hlook.
Qed.

Lemma validateForm_ok_mileage (schema : list CustomField.t) (fd : VehicleForm.FormData) :
  (VehicleForm.validateForm schema fd).2 = true → 0 ≤ VehicleForm.mileage fd.
Proof.
  intros Hok. destruct (Z.lt_ge_cases (VehicleForm.mileage fd) 0) as [Hneg|]; [|done].
  apply (validateForm_mileage schema) in Hneg as [_ Hfalse]. congruence.
Qed.

(** The scenario of the optional "Year" field: nothing entered for it, and
    the save goes through. *)
Example optional_year_scenario :
  let schema := [ CustomField.mk "3" "Year" number None false ] in
  VehicleForm.handleSubmit schema vanA = (∅, Some (VehicleForm.toPartial vanA)).
Proof. reflexivity. Qed.

(** A property read also finds what an object inherits: for a required
    field named like a built-in member, the value read on an empty edit is
    that member, which is truthy, so no error is raised for it. *)
Remark inherited_member_reads_truthy :
  let schema := [ CustomField.mk "5" "constructor" text None true ] in
  ¬ valueMissing vanA (CustomField.mk "5" "constructor" text None true)
  ∧ VehicleForm.customFields vanA !! "constructor"%string = None
  ∧ (VehicleForm.validateForm schema vanA).2 = true.
Proof. split; [by vm_compute|]. split; reflexivity. Qed.

(** ** Saving a vehicle *)

Section SaveVehicle.
Import FleetDashboard.
Context (clock : Clock).

Lemma spread_mileage (v : Vehicle.t) (fd : VehicleForm.FormData) :
  Vehicle.mileage (spread clock v (VehicleForm.toPartial fd)) = VehicleForm.mileage fd.
Proof. reflexivity. Qed.

Lemma newVehicle_mileage (fd : VehicleForm.FormData) :
  Vehicle.mileage (newVehicle clock (VehicleForm.toPartial fd)) = VehicleForm.mileage fd.
Proof.
  simpl. unfold orNumber.
  destruct (Z.eqb_spec (VehicleForm.mileage fd) 0); congruence.
Qed.

Lemma handleSaveVehicle_mileage (fd : VehicleForm.FormData) (st : State) :
  0 ≤ VehicleForm.mileage fd →
  Forall mileageNonNegative (vehicles st) →
  Forall mileageNonNegative (vehicles (handleSaveVehicle clock (VehicleForm.toPartial fd) st)).
Proof.
  intros Hfd Hst. unfold handleSaveVehicle. simpl.
  destruct (editingVehicle st) as [editing|].
  - apply Forall_fmap. eapply Forall_impl; [exact Hst|].
    intros v Hv. simpl. case_bool_decide; [|done].
    unfold mileageNonNegative. by rewrite spread_mileage.
  - apply Forall_app. split; [done|].
    apply Forall_singleton. unfold mileageNonNegative. by rewrite newVehicle_mileage.
Qed.

Lemma submitVehicleForm_cases (fd : VehicleForm.FormData) (st : State) :
  submitVehicleForm clock fd st
  = if (VehicleForm.validateForm (customFields st) fd).2
    then handleSaveVehicle clock (VehicleForm.toPartial fd) st
    else st.
Proof.
  unfold submitVehicleForm. rewrite handleSubmit_unfold.
  by destruct (VehicleForm.validateForm (customFields st) fd).2.
Qed.

Lemma submitVehicleForm_mileage (fd : VehicleForm.FormData) (st : State) :
  Forall mileageNonNegative (vehicles st) →
  Forall mileageNonNegative (vehicles (submitVehicleForm clock fd st)).
Proof.
  intros Hst. rewrite submitVehicleForm_cases.
  destruct (VehicleForm.validateForm (customFields st) fd).2 eqn:Hok; [|done].
  apply handleSaveVehicle_mileage; [|done].
  by apply (validateForm_ok_mileage (customFields st)).
Qed.

End SaveVehicle.

Lemma step_mileage (st st' : FleetDashboard.State) :
  Session.step st st' →
  Forall mileageNonNegative (FleetDashboard.vehicles st) →
  Forall mileageNonNegative (FleetDashboard.vehicles st').
Proof.
  intros Hstep Hst. destruct Hstep; simpl; try done.
  - by apply submitVehicleForm_mileage.
  - apply Forall_forall. intros v [_ Hv]%list_elem_of_filter.
    rewrite Forall_forall in Hst. by apply Hst.
Qed.

Lemma mock_mileage : Forall mileageNonNegative Mock.mockVehicles.
Proof. repeat constructor; unfold mileageNonNegative; simpl; lia. Qed.

(** C6. A vehicle edit with negative mileage is rejected: validation
    reports the mileage error, [onSave] is not called and the dashboard state
    stays as it is. Submitting the form keeps every mileage in the store
    non-negative, and so every vehicle has a non-negative mileage in every
    state a session reaches from the seed data. *)
Theorem vehicle_mileage_never_negative :
  (∀ schema fd, VehicleForm.mileage fd < 0 →
     (VehicleForm.validateForm schema fd).1 !! "mileage"%string
     = Some "Mileage cannot be negative"%string
     ∧ (VehicleForm.handleSubmit schema fd).2 = None)
  ∧ (∀ clock fd st, VehicleForm.mileage fd < 0 →
       FleetDashboard.submitVehicleForm clock fd st = st)
  ∧ (∀ clock fd st,
       Forall mileageNonNegative (FleetDashboard.vehicles st) →
       Forall mileageNonNegative
         (FleetDashboard.vehicles (FleetDashboard.submitVehicleForm clock fd st)))
  ∧ (∀ st, Session.reachable st →
       Forall mileageNonNegative (FleetDashboard.vehicles st)).
Proof.
  split; [|split; [|split]].
  - intros schema fd Hneg.
    destruct (validateForm_mileage schema fd Hneg) as [Hlook Hfail].
    split; [done|]. by rewrite handleSubmit_unfold, Hfail.
  - intros clock fd st Hneg. rewrite submitVehicleForm_cases.
    by destruct (validateForm_mileage (FleetDashboard.customFields st) fd Hneg) as [_ ->].
  - intros clock fd st. apply submitVehicleForm_mileage.
  - apply reachable_ind; [apply mock_mileage|].
    intros st st' _ Hstep Hst. by eapply step_mileage.
Qed.

(** A negative odometer reading typed into the form for a new vehicle. *)
Example negative_mileage_rejected :
  let fd := VehicleForm.mkFormData "Van B" available (-5)
              (<["Vehicle Type" := JS.VString "Cargo Van"]>
                 (<["License Plate" := JS.VString "JKL-012"]> ∅)) [] in
  let st := FleetDashboard.handleAddVehicle Mock.initial in
  map_to_list (VehicleForm.handleSubmit Mock.mockFields fd).1
  = [("mileage", "Mileage cannot be negative")]%string
  ∧ FleetDashboard.submitVehicleForm laterClock fd st = st.
Proof. by vm_compute. Qed.

(** ** Field schema *)

Section FieldForm.
Import FieldManager.
Context (clock : Clock) (fields : list CustomField.t) (st : State).

Lemma handleSubmit_invalid :
  (validateForm fields st).2 = false →
  handleSubmit clock fields st
  = (mkState (showForm st) (editingField st) (formData st) (newOption st)
       (newOptionColor st) (validateForm fields st).1, fields).
Proof.
  intros Hbad. unfold handleSubmit.
  destruct (validateForm fields st) as [e valid]. simpl in *. by subst.
Qed.

Lemma handleSubmit_valid :
  (validateForm fields st).2 = true →
  ∃ fieldData,
    CustomField.name fieldData = JS.trim (name (formData st))
    ∧ CustomField.type fieldData = type (formData st)
    ∧ CustomField.options fieldData
      = (if bool_decide (type (formData st) = dropdown)
         then Some (options (formData st)) else None)
    ∧ handleSubmit clock fields st
      = (closedForm,
         match editingField st with
         | Some e =>
             (λ f, if bool_decide (CustomField.id f = CustomField.id e)
                   then fieldData else f) <$> fields
         | None => fields ++ [fieldData]
         end).
Proof.
  intros Hok. unfold handleSubmit.
  destruct (validateForm fields st) as [e valid]. simpl in *. subst. simpl.
  exists (CustomField.mk
            (match editingField st with
             | Some e => orString (CustomField.id e) (Date_now_toString clock)
             | None => Date_now_toString clock
             end)
            (JS.trim (name (formData st))) (type (formData st))
            (if bool_decide (type (formData st) = dropdown)
             then Some (options (formData st)) else None)
            (required (formData st))).
  done.
Qed.

Lemma validateForm_empty_dropdown :
  type (formData st) = dropdown → options (formData st) = [] →
  (validateForm fields st).1 !! "options"%string
  = Some "At least one option is required for dropdown fields"%string
  ∧ (validateForm fields st).2 = false.
Proof.
  intros Hty Hopts. unfold validateForm. rewrite Hty, Hopts. simpl.
  split; [by rewrite lookup_insert_eq|].
  eapply size_zero_lookup. by rewrite lookup_insert_eq.
Qed.

Lemma validateForm_ok_dropdown :
  (validateForm fields st).2 = true → type (formData st) = dropdown →
  (1 ≤ length (options (formData st)))%nat.
Proof.
  intros Hok Hty.
  destruct (options (formData st)) as [|o os] eqn:Hopts; [|simpl; lia].
  destruct (validateForm_empty_dropdown Hty Hopts) as [_ Hbad]. congruence.
Qed.

(** A non-blank name that some other field already carries, up to case, is
    reported and blocks the save. *)
Lemma validateForm_duplicate (g : CustomField.t) :
  JS.truthyString (JS.trim (name (formData st))) = true →
  g ∈ fields →
  sameNameIgnoringCase (CustomField.name g) (name (formData st)) →
  differsFromEditing g (editingField st) = true →
  (validateForm fields st).1 !! "name"%string = Some "Field name already exists"%string
  ∧ (validateForm fields st).2 = false.
Proof.
  intros Hname Hg Hsame Hdiff.
  assert (existsb (λ f,
            bool_decide (JS.toLowerCase (CustomField.name f)
                         = JS.toLowerCase (name (formData st)))
            && differsFromEditing f (editingField st)) fields = true) as Hex.
  { apply existsb_exists. exists g. split; [by apply list_elem_of_In|].
    by rewrite bool_decide_eq_true_2, Hdiff. }
  unfold validateForm. rewrite Hname, Hex. simpl.
  assert (∀ e : gmap string string,
            e !! "name"%string = Some "Field name already exists"%string →
            (if bool_decide (type (formData st) = dropdown)
                && bool_decide (length (options (formData st)) = 0%nat)
             then <["options" := "At least one option is required for dropdown fields"]> e
             else e) !! "name"%string = Some "Field name already exists"%string) as Hkeep.
  { intros e He. destruct (_ && _); [|done]. by rewrite lookup_insert_ne. }
  specialize (Hkeep _ (lookup_insert_eq ∅ "name"%string _)).
  split; [done|]. eapply size_zero_lookup. by rewrite Hkeep.
Qed.

Lemma handleSubmit_dropdown :
  Forall dropdownHasOption fields →
  Forall dropdownHasOption (handleSubmit clock fields st).2.
Proof.
  intros Hfields.
  destruct (validateForm fields st).2 eqn:Hok.
  - destruct (handleSubmit_valid Hok) as (fieldData & _ & Hty & Hopts & ->). simpl.
    assert (dropdownHasOption fieldData) as Hnew.
    { intros Hdrop. rewrite Hty in Hdrop. rewrite Hopts, bool_decide_eq_true_2 by done.
      eexists. split; [done|]. by apply validateForm_ok_dropdown. }
    destruct (editingField st) as [e|].
    + apply Forall_fmap. eapply Forall_impl; [exact Hfields|].
      intros f Hf. unfold compose.
      destruct (bool_decide (CustomField.id f = CustomField.id e)); assumption.
    + apply Forall_app. split; [done|]. by apply Forall_singleton.
  - by rewrite handleSubmit_invalid.
Qed.

End FieldForm.

Lemma step_dropdown (st st' : FleetDashboard.State) :
  Session.step st st' →
  Forall dropdownHasOption (FleetDashboard.customFields st) →
  Forall dropdownHasOption (FleetDashboard.customFields st').
Proof.
  intros Hstep Hst. destruct Hstep; simpl; try done.
  - rewrite submitVehicleForm_cases.
    by destruct (VehicleForm.validateForm (FleetDashboard.customFields st) formData).2.
  - by apply handleSubmit_dropdown.
  - apply Forall_forall. intros f [_ Hf]%list_elem_of_filter.
    rewrite Forall_forall in Hst. by apply Hst.
Qed.

Lemma mock_dropdown : Forall dropdownHasOption Mock.mockFields.
Proof.
  repeat constructor; intros Hty; try discriminate Hty;
    (eexists; split; [reflexivity|simpl; lia]).
Qed.

(** C5. Submitting a field definition of type dropdown with an empty option
    list fails with the options error and leaves the schema as it is.
    Submitting the field form keeps the property that every dropdown field
    of the schema has at least one option, and so that property holds of the
    schema in every state a session reaches from the seed data. *)
Theorem dropdown_field_has_option :
  (∀ clock fields st,
     FieldManager.type (FieldManager.formData st) = dropdown →
     FieldManager.options (FieldManager.formData st) = [] →
     FieldManager.errors (FieldManager.handleSubmit clock fields st).1 !! "options"%string
     = Some "At least one option is required for dropdown fields"%string
     ∧ (FieldManager.handleSubmit clock fields st).2 = fields)
  ∧ (∀ clock fields st,
       Forall dropdownHasOption fields →
       Forall dropdownHasOption (FieldManager.handleSubmit clock fields st).2)
  ∧ (∀ st, Session.reachable st →
       Forall dropdownHasOption (FleetDashboard.customFields st)).
Proof.
  split; [|split].
  - intros clock fields st Hty Hopts.
    destruct (validateForm_empty_dropdown fields st Hty Hopts) as [Hlook Hbad].
    by rewrite handleSubmit_invalid.
  - intros clock fields st. apply handleSubmit_dropdown.
  - apply reachable_ind; [apply mock_dropdown|].
    intros st st' _ Hstep Hst. by eapply step_dropdown.
Qed.

(** Adding a dropdown named "Colour" without options to the seed schema. *)
Example empty_dropdown_rejected :
  map_to_list (FieldManager.errors
                 (FieldManager.handleSubmit laterClock Mock.mockFields emptyDropdownForm).1)
  = [("options", "At least one option is required for dropdown fields")]%string
  ∧ (FieldManager.handleSubmit laterClock Mock.mockFields emptyDropdownForm).2
    = Mock.mockFields.
Proof. by vm_compute. Qed.

(** A submitted name that is not blank and equals, up to case, the name of
    another field is rejected with the duplicate-name error, and the schema
    stays as it is. *)
Lemma duplicate_name_rejected (clock : Clock) (fields : list CustomField.t)
    (st : FieldManager.State) (g : CustomField.t) :
  JS.truthyString (JS.trim (FieldManager.name (FieldManager.formData st))) = true →
  g ∈ fields →
  sameNameIgnoringCase (CustomField.name g) (FieldManager.name (FieldManager.formData st)) →
  FieldManager.differsFromEditing g (FieldManager.editingField st) = true →
  FieldManager.errors (FieldManager.handleSubmit clock fields st).1 !! "name"%string
  = Some "Field name already exists"%string
  ∧ (FieldManager.handleSubmit clock fields st).2 = fields.
Proof.
  intros Hname Hg Hsame Hdiff.
  destruct (validateForm_duplicate fields st g Hname Hg Hsame Hdiff) as [Hlook Hbad].
  by rewrite handleSubmit_invalid.
Qed.

(** The scenario of the "License Plate" field: the same name in lower case
    is rejected. *)
Example license_plate_scenario :
  map_to_list (FieldManager.errors
                 (FieldManager.handleSubmit laterClock Mock.mockFields lowerCaseForm).1)
  = [("name", "Field name already exists")]%string
  ∧ (FieldManager.handleSubmit laterClock Mock.mockFields lowerCaseForm).2
    = Mock.mockFields.
Proof. by vm_compute. Qed.

Lemma mock_names_unique : namesUniqueIgnoringCase Mock.mockFields.
Proof.
  intros i j f g Hi Hj Hne Hsame.
  destruct i as [|[|[|[|i]]]]; simplify_eq/=;
    destruct j as [|[|[|[|j]]]]; simplify_eq/=;
    by vm_compute in Hsame.
Qed.

(** C4 at the failing input. On the seed schema, whose names are unique up
    to case, the name "license plate" typed with a trailing space passes
    validation, because the comparison is made on the name as typed, and
    is saved trimmed: the schema then holds "License Plate" and
    "license plate", in a state a session reaches from the seed data. *)
Theorem trimmed_name_duplicates_existing :
  let result := FieldManager.handleSubmit laterClock Mock.mockFields trailingSpaceForm in
  namesUniqueIgnoringCase Mock.mockFields
  ∧ FieldManager.errors result.1 = ∅
  ∧ result.2
    = Mock.mockFields ++ [ CustomField.mk "1706173200000" "license plate" text None false ]
  ∧ ¬ namesUniqueIgnoringCase result.2
  ∧ Session.reachable
      (FleetDashboard.submitFieldForm laterClock trailingSpaceForm Mock.initial).
Proof.
  split; [apply mock_names_unique|].
  split; [reflexivity|]. split; [reflexivity|]. split.
  - intros Huniq.
    apply (Huniq 1%nat 4%nat
             (CustomField.mk "2" "License Plate" text None true)
             (CustomField.mk "1706173200000" "license plate" text None false));
      [reflexivity|reflexivity|lia|reflexivity].
  - apply rtc_once. constructor.
Qed.

(** * Further properties of the components *)

(** ** Due-state over time and mileage, and the lists of the panel *)

Lemma Number_ge_mono (engine : JS.Engine) (a b : Z) (v : TriggerValue) :
  a ≤ b → RemindersPanel.Number_ge engine a v = true →
  RemindersPanel.Number_ge engine b v = true.
Proof.
  intros Hab. unfold RemindersPanel.Number_ge.
  destruct v as [s|n]; [destruct (JS.StringToNumber engine s) as [n|]; [|done]|];
    rewrite !Z.geb_le; lia.
Qed.

(** X1. Time only makes reminders due: a reminder that is due at some
    instant is due at every later instant, whatever its trigger. *)
Theorem due_stays_due_later (engine : JS.Engine) (vehicles : list Vehicle.t)
    (now now' : Z) (r : Reminder.t) :
  now ≤ now' →
  RemindersPanel.isReminderDue engine vehicles now r = true →
  RemindersPanel.isReminderDue engine vehicles now' r = true.
Proof.
  intros Hle. unfold RemindersPanel.isReminderDue.
  destruct (bool_decide (Reminder.status r = complete)); [done|].
  destruct (bool_decide (Reminder.triggerType r = date)); [|done].
  simpl. rewrite !Date_le_true. intros (t & Ht & Htn). exists t. split; [done|lia].
Qed.

Lemma due_stays_due_later_witness :
  atUTC 19768 1 ≤ atUTC 19800 0
  ∧ RemindersPanel.isReminderDue plainEngine Mock.mockVehicles (atUTC 19800 0)
      Mock.annualInspection = true.
Proof.
  split; [by vm_compute|].
  apply (due_stays_due_later plainEngine Mock.mockVehicles (atUTC 19768 1)).
  - by vm_compute.
  - vm_compute; reflexivity.
Defined.

(** X2. A reminder that is due stays due when the mileage read for its
    vehicle does not decrease, whatever else changes in the vehicle list. *)
Theorem due_stays_due_as_mileage_grows (engine : JS.Engine)
    (vehicles vehicles' : list Vehicle.t) (now : Z) (r : Reminder.t) :
  RemindersPanel.getCurrentMileage vehicles (Reminder.vehicleId r)
  ≤ RemindersPanel.getCurrentMileage vehicles' (Reminder.vehicleId r) →
  RemindersPanel.isReminderDue engine vehicles now r = true →
  RemindersPanel.isReminderDue engine vehicles' now r = true.
Proof.
  intros Hle. unfold RemindersPanel.isReminderDue.
  destruct (bool_decide (Reminder.status r = complete)); [done|].
  destruct (bool_decide (Reminder.triggerType r = date)); [done|].
  by apply Number_ge_mono.
Qed.

Lemma due_stays_due_as_mileage_grows_witness :
  let van m := Vehicle.mk "2" "Fleet Van 002" in_use m ∅ [] "" "" in
  RemindersPanel.isReminderDue plainEngine [van 41000] 0 Mock.oilChange = true.
Proof.
  apply (due_stays_due_as_mileage_grows plainEngine
           [Vehicle.mk "2" "Fleet Van 002" in_use 40000 ∅ [] "" ""]).
  - by vm_compute.
  - vm_compute; reflexivity.
Defined.

Lemma due_filter_incomplete (engine : JS.Engine) (vehicles : list Vehicle.t)
    (now : Z) (reminders : list Reminder.t) :
  RemindersPanel.dueReminders engine vehicles now reminders
  = filter (λ r, RemindersPanel.isReminderDue engine vehicles now r = true) reminders.
Proof.
  unfold RemindersPanel.dueReminders, RemindersPanel.incompleteReminders.
  induction reminders as [|r rs IH]; [done|].
  rewrite !filter_cons.
  destruct (decide (Reminder.status r = incomplete)) as [Hst|Hst].
  - rewrite filter_cons, IH. done.
  - rewrite IH. destruct (decide (_ = true)) as [Hdue|]; [|done].
    destruct (Reminder.status r) eqn:Hs; [done|].
    by rewrite isReminderDue_complete in Hdue.
Qed.

(** X3. The due list of the panel is exactly the reminders the evaluator
    reports as due, in their order; it is part of the pending list, so the
    panel's due count never exceeds the dashboard's count, which counts
    the pending reminders. *)
Theorem due_list_within_pending (engine : JS.Engine) (vehicles : list Vehicle.t)
    (now : Z) (reminders : list Reminder.t) :
  RemindersPanel.dueReminders engine vehicles now reminders
  = filter (λ r, RemindersPanel.isReminderDue engine vehicles now r = true) reminders
  ∧ RemindersPanel.dueReminders engine vehicles now reminders
    `sublist_of` RemindersPanel.incompleteReminders reminders
  ∧ (length (RemindersPanel.dueReminders engine vehicles now reminders)
     ≤ FleetDashboard.pendingReminders reminders)%nat.
Proof.
  split; [apply due_filter_incomplete|].
  split; [apply sublist_filter|].
  apply length_filter.
Qed.

(** X4. The pending and the completed list split the reminders: together
    they hold every reminder exactly once. *)
Theorem pending_and_completed_split (reminders : list Reminder.t) :
  RemindersPanel.incompleteReminders reminders
    ++ RemindersPanel.completedReminders reminders ≡ₚ reminders.
Proof.
  unfold RemindersPanel.incompleteReminders, RemindersPanel.completedReminders.
  induction reminders as [|r rs IH]; [done|].
  rewrite !filter_cons. destruct (Reminder.status r) eqn:Hs.
  - rewrite decide_True, decide_False by done. simpl. by rewrite IH.
  - rewrite decide_False, decide_True by done.
    rewrite <-Permutation_middle. by rewrite IH.
Qed.

(** X5. Completing by id takes exactly the reminders with that id off the
    pending list, and none of them is due afterwards. *)
Theorem complete_leaves_pending (engine : JS.Engine) (vehicles : list Vehicle.t)
    (now : Z) (clock : Clock) (reminders : list Reminder.t) (reminderId : string) :
  let reminders' := RemindersPanel.handleCompleteReminder clock reminders reminderId in
  RemindersPanel.incompleteReminders reminders'
  = RemindersPanel.handleDeleteReminder
      (RemindersPanel.incompleteReminders reminders) reminderId
  ∧ (∀ r, r ∈ reminders' → Reminder.id r = reminderId →
       Reminder.status r = complete
       ∧ RemindersPanel.isReminderDue engine vehicles now r = false)
  ∧ length reminders' = length reminders.
Proof.
  simpl. split; [|split].
  - unfold RemindersPanel.incompleteReminders, RemindersPanel.handleDeleteReminder,
      RemindersPanel.handleCompleteReminder.
    induction reminders as [|r rs IH]; [done|].
    rewrite fmap_cons, !filter_cons, IH.
    destruct (bool_decide (Reminder.id r = reminderId)) eqn:Hid.
    + apply bool_decide_eq_true_1 in Hid. simpl.
      destruct (decide (Reminder.status r = incomplete)); [|done].
      rewrite filter_cons. by rewrite decide_False by naive_solver.
    + apply bool_decide_eq_false_1 in Hid.
      destruct (decide (Reminder.status r = incomplete)); [|done].
      rewrite filter_cons. by rewrite decide_True by done.
  - intros r Hr Hid.
    unfold RemindersPanel.handleCompleteReminder in Hr.
    apply list_elem_of_fmap in Hr as (r0 & -> & _).
    destruct (bool_decide (Reminder.id r0 = reminderId)) eqn:Hid0.
    + split; [done|]. by apply isReminderDue_complete.
    + apply bool_decide_eq_false_1 in Hid0. done.
  - unfold RemindersPanel.handleCompleteReminder. apply length_fmap.
Qed.

(** X6. Deleting by id leaves no reminder with that id and keeps every
    other reminder, in order; deleting after completing the same id is
    deleting. *)
Theorem delete_reminder_removes_id (clock : Clock) (reminders : list Reminder.t)
    (reminderId : string) :
  (∀ r, r ∈ RemindersPanel.handleDeleteReminder reminders reminderId
        ↔ r ∈ reminders ∧ Reminder.id r ≠ reminderId)
  ∧ RemindersPanel.handleDeleteReminder reminders reminderId `sublist_of` reminders
  ∧ RemindersPanel.handleDeleteReminder
      (RemindersPanel.handleCompleteReminder clock reminders reminderId) reminderId
    = RemindersPanel.handleDeleteReminder reminders reminderId.
Proof.
  unfold RemindersPanel.handleDeleteReminder. split; [|split].
  - intros r. rewrite list_elem_of_filter. tauto.
  - apply sublist_filter.
  - unfold RemindersPanel.handleCompleteReminder.
    induction reminders as [|r rs IH]; [done|].
    rewrite fmap_cons, !filter_cons, IH.
    destruct (bool_decide (Reminder.id r = reminderId)) eqn:Hid.
    + apply bool_decide_eq_true_1 in Hid. simpl.
      by rewrite !decide_False by naive_solver.
    + apply bool_decide_eq_false_1 in Hid. by rewrite decide_True by done.
Qed.

Lemma find_filter_name_None (vehicles : list Vehicle.t) (id : string) :
  find (λ v, bool_decide (Vehicle.id v = id)) (filter (λ v, Vehicle.id v ≠ id) vehicles)
  = None.
Proof. apply find_filter_id_None. Qed.

(** X7. The name shown for a reminder's vehicle is never empty: it is
    'Unknown Vehicle' when no vehicle has the id or the first such vehicle
    has an empty name, and after that vehicle is deleted. *)
Theorem vehicle_name_never_empty (vehicles : list Vehicle.t) (vehicleId : string) :
  RemindersPanel.getVehicleName vehicles vehicleId ≠ ""%string
  ∧ (referencedVehicle vehicles vehicleId = None →
     RemindersPanel.getVehicleName vehicles vehicleId = "Unknown Vehicle"%string)
  ∧ (∀ st, RemindersPanel.getVehicleName
             (FleetDashboard.vehicles (FleetDashboard.onDeleteVehicle vehicleId st))
             vehicleId = "Unknown Vehicle"%string).
Proof.
  unfold RemindersPanel.getVehicleName, referencedVehicle. split; [|split].
  - destruct (find _ vehicles) as [v|]; [|done].
    unfold orString, JS.truthyString. case_bool_decide as Hname; simpl; [done|].
    exact Hname.
  - by intros ->.
  - intros st. simpl. by rewrite find_filter_name_None.
Qed.

(** ** The reminder form *)

Section ReminderForm.
Import RemindersPanel.
Context (engine : JS.Engine).

Lemma notPositiveNumber_false (v : string) :
  notPositiveNumber engine v = false
  ↔ ∃ n, JS.StringToNumber engine v = Some n ∧ 0 < n.
Proof.
  unfold notPositiveNumber. destruct (JS.StringToNumber engine v) as [n|].
  - rewrite Z.leb_gt. split; [eauto|]. by intros (? & [= <-] & ?).
  - split; [done|]. by intros (? & ? & _).
Qed.

Lemma invalidDate_false (v : string) :
  invalidDate engine v = false ↔ is_Some (JS.Date_parse engine v).
Proof.
  unfold invalidDate. destruct (JS.Date_parse engine v).
  - split; [eauto|done].
  - split; [done|]. by intros [? ?].
Qed.

(** The result of validation as one boolean. *)
Lemma validateForm_result (st : State) :
  (validateForm engine st).2
  = JS.truthyString (vehicleId (formData st))
    && JS.truthyString (JS.trim (description (formData st)))
    && JS.truthyString (triggerValue (formData st))
    && match triggerType (formData st) with
       | mileage => negb (notPositiveNumber engine (triggerValue (formData st)))
       | date => negb (invalidDate engine (triggerValue (formData st)))
       end.
Proof.
  unfold validateForm.
  destruct (JS.truthyString (vehicleId _)), (JS.truthyString (JS.trim _)),
    (JS.truthyString (triggerValue _)), (triggerType _),
    (notPositiveNumber _ _), (invalidDate _ _); reflexivity.
Qed.

Lemma truthyString_true (s : string) : JS.truthyString s = true ↔ s ≠ ""%string.
Proof.
  unfold JS.truthyString. case_bool_decide; simpl; split; congruence.
Qed.

Lemma validateForm_accepts (st : State) :
  (validateForm engine st).2 = true
  ↔ vehicleId (formData st) ≠ ""%string
    ∧ JS.trim (description (formData st)) ≠ ""%string
    ∧ triggerValue (formData st) ≠ ""%string
    ∧ triggerAccepted engine (triggerType (formData st)) (triggerValue (formData st)).
Proof.
  rewrite validateForm_result, !andb_true_iff, !truthyString_true.
  unfold triggerAccepted. destruct (triggerType (formData st));
    rewrite negb_true_iff, ?notPositiveNumber_false, ?invalidDate_false; tauto.
Qed.

Lemma reminderData_wellTriggered (clock : Clock) (st : State) :
  (validateForm engine st).2 = true →
  wellTriggered engine (reminderData engine clock st).
Proof.
  intros (_ & _ & _ & Hacc)%validateForm_accepts.
  unfold wellTriggered, triggerAccepted, reminderData in *. simpl.
  destruct (triggerType (formData st)); simpl; [done|].
  destruct Hacc as (n & Hn & Hpos). unfold numberOf. by rewrite Hn.
Qed.

Lemma handleSubmit_rejected (clock : Clock) (reminders : list Reminder.t) (st : State) :
  (validateForm engine st).2 = false →
  handleSubmit engine clock reminders st
  = (mkState (showForm st) (editingReminder st) (formData st)
       (validateForm engine st).1, reminders).
Proof.
  intros Hbad. unfold handleSubmit.
  destruct (validateForm engine st) as [e valid]. simpl in *. by subst.
Qed.

Lemma handleSubmit_accepted (clock : Clock) (reminders : list Reminder.t) (st : State) :
  (validateForm engine st).2 = true →
  handleSubmit engine clock reminders st
  = (closedForm,
     match editingReminder st with
     | Some e =>
         (λ r, if bool_decide (Reminder.id r = Reminder.id e)
               then reminderData engine clock st else r) <$> reminders
     | None => reminders ++ [reminderData engine clock st]
     end).
Proof.
  intros Hok. unfold handleSubmit.
  destruct (validateForm engine st) as [e valid]. simpl in *. by subst.
Qed.

End ReminderForm.

(** X8. The reminder form is accepted exactly when a vehicle is selected,
    the description is not blank, the trigger value is not empty and, for a
    mileage trigger, reads as a number above 0, for a date trigger, as a
    valid date. *)
Theorem reminder_form_accepted_iff (engine : JS.Engine) (st : RemindersPanel.State) :
  (RemindersPanel.validateForm engine st).2 = true
  ↔ RemindersPanel.vehicleId (RemindersPanel.formData st) ≠ ""%string
    ∧ JS.trim (RemindersPanel.description (RemindersPanel.formData st)) ≠ ""%string
    ∧ RemindersPanel.triggerValue (RemindersPanel.formData st) ≠ ""%string
    ∧ triggerAccepted engine
        (RemindersPanel.triggerType (RemindersPanel.formData st))
        (RemindersPanel.triggerValue (RemindersPanel.formData st)).
Proof. apply validateForm_accepts. Qed.

(** X9. Submitting the reminder form keeps every reminder's trigger value
    of the type its trigger type asks for: a reminder built by the form has
    a positive number for a mileage trigger and a string denoting a valid
    date for a date trigger. *)
Theorem reminder_submit_keeps_trigger_typed (engine : JS.Engine) (clock : Clock)
    (reminders : list Reminder.t) (st : RemindersPanel.State) :
  Forall (wellTriggered engine) reminders →
  Forall (wellTriggered engine)
    (RemindersPanel.handleSubmit engine clock reminders st).2.
Proof.
  intros Hall.
  destruct (RemindersPanel.validateForm engine st).2 eqn:Hok.
  - rewrite handleSubmit_accepted by done. simpl.
    pose proof (reminderData_wellTriggered engine clock st Hok) as Hnew.
    destruct (RemindersPanel.editingReminder st) as [e|].
    + apply Forall_fmap. eapply Forall_impl; [exact Hall|].
      intros r Hr. unfold compose.
      destruct (bool_decide (Reminder.id r = Reminder.id e)); assumption.
    + apply Forall_app. split; [done|]. by apply Forall_singleton.
  - by rewrite handleSubmit_rejected.
Qed.

Lemma reminder_submit_keeps_trigger_typed_witness :
  Forall (wellTriggered digitsEngine)
    (RemindersPanel.handleSubmit digitsEngine laterClock Mock.mockReminders
       newOilChangeForm).2.
Proof.
  apply (reminder_submit_keeps_trigger_typed digitsEngine laterClock).
  repeat constructor; vm_compute; eauto.
Defined.

(** X10. An accepted reminder submission, when adding, appends one
    incomplete reminder without completion stamp and keeps the others;
    when editing, it keeps the length of the list and every reminder with
    another id, and the rewritten reminder keeps the status and the
    completion stamp of the edited one, and its id when that is not
    empty. *)
Theorem reminder_submit_accepted (engine : JS.Engine) (clock : Clock)
    (reminders : list Reminder.t) (st : RemindersPanel.State) :
  (RemindersPanel.validateForm engine st).2 = true →
  let saved := RemindersPanel.reminderData engine clock st in
  let reminders' := (RemindersPanel.handleSubmit engine clock reminders st).2 in
  match RemindersPanel.editingReminder st with
  | None =>
      reminders' = reminders ++ [saved]
      ∧ Reminder.status saved = incomplete
      ∧ Reminder.completedAt saved = None ∧ Reminder.completedBy saved = None
  | Some e =>
      length reminders' = length reminders
      ∧ (∀ i r, reminders !! i = Some r →
           reminders' !! i
           = Some (if bool_decide (Reminder.id r = Reminder.id e) then saved else r))
      ∧ Reminder.status saved = Reminder.status e
      ∧ Reminder.completedAt saved = Reminder.completedAt e
      ∧ Reminder.completedBy saved = Reminder.completedBy e
      ∧ (Reminder.id e ≠ ""%string → Reminder.id saved = Reminder.id e)
  end.
Proof.
  intros Hok. simpl. rewrite handleSubmit_accepted by done. simpl.
  destruct (RemindersPanel.editingReminder st) as [e|] eqn:Hedit.
  - split; [apply length_fmap|]. split.
    { intros i r Hi. by rewrite list_lookup_fmap, Hi. }
    unfold RemindersPanel.reminderData. rewrite ?Hedit. simpl.
    repeat split; try done.
    intros Hid. unfold orString. by rewrite (proj2 (truthyString_true _) Hid).
  - unfold RemindersPanel.reminderData. rewrite ?Hedit. done.
Qed.

Lemma reminder_submit_accepted_witness :
  let saved := RemindersPanel.reminderData plainEngine laterClock editBrakeForm in
  length (RemindersPanel.handleSubmit plainEngine laterClock Mock.mockReminders
            editBrakeForm).2 = length Mock.mockReminders
  ∧ Reminder.status saved = complete
  ∧ Reminder.completedAt saved = Some "2024-01-18 14:30"%string.
Proof.
  pose proof (reminder_submit_accepted plainEngine laterClock Mock.mockReminders
                editBrakeForm ltac:(vm_compute; reflexivity)) as H.
  simpl in H. destruct H as (Hlen & _ & Hst & Hat & _).
  split; [exact Hlen|]. split; [exact Hst|exact Hat].
Defined.

(** ** The field form *)

Section FieldFormMore.
Import FieldManager.
Context (clock : Clock) (fields : list CustomField.t) (st : State).

Lemma nameTaken_false :
  nameTaken fields st = false
  ↔ ∀ g, g ∈ fields →
      sameNameIgnoringCase (CustomField.name g) (name (formData st)) →
      differsFromEditing g (editingField st) = false.
Proof.
  unfold nameTaken, sameNameIgnoringCase. simpl. split.
  - intros Hex g Hg Hsame.
    destruct (differsFromEditing g (editingField st)) eqn:Hd; [|done].
    assert (existsb (λ f,
              bool_decide (JS.toLowerCase (CustomField.name f)
                           = JS.toLowerCase (name (formData st)))
              && differsFromEditing f (editingField st)) fields = true) as Htrue.
    { apply existsb_exists. exists g. split; [by apply list_elem_of_In|].
      by rewrite bool_decide_eq_true_2, Hd. }
    congruence.
  - intros Hall. apply not_true_is_false. intros Hex.
    apply existsb_exists in Hex as (g & Hg%list_elem_of_In & Hboth).
    apply andb_true_iff in Hboth as [Hsame%bool_decide_eq_true_1 Hd].
    rewrite (Hall g Hg Hsame) in Hd. done.
Qed.

Lemma validateForm_result_fields :
  (validateForm fields st).2
  = JS.truthyString (JS.trim (name (formData st)))
    && negb (nameTaken fields st)
    && negb (bool_decide (type (formData st) = dropdown)
             && bool_decide (length (options (formData st)) = 0%nat)).
Proof.
  unfold validateForm, nameTaken.
  destruct (JS.truthyString (JS.trim _)), (existsb _ fields),
    (bool_decide (type _ = dropdown)), (bool_decide (length _ = 0%nat)); reflexivity.
Qed.

End FieldFormMore.

(** X11. The field form is accepted exactly when the typed name is not
    blank, no other field carries the typed name up to case, and a
    dropdown has at least one option. *)
Theorem field_form_accepted_iff (fields : list CustomField.t)
    (st : FieldManager.State) :
  (FieldManager.validateForm fields st).2 = true
  ↔ JS.trim (FieldManager.name (FieldManager.formData st)) ≠ ""%string
    ∧ (∀ g, g ∈ fields →
         sameNameIgnoringCase (CustomField.name g)
           (FieldManager.name (FieldManager.formData st)) →
         FieldManager.differsFromEditing g (FieldManager.editingField st) = false)
    ∧ (FieldManager.type (FieldManager.formData st) = dropdown →
       FieldManager.options (FieldManager.formData st) ≠ []).
Proof.
  rewrite validateForm_result_fields, !andb_true_iff, !negb_true_iff.
  rewrite truthyString_true, nameTaken_false, andb_false_iff.
  rewrite !bool_decide_eq_false.
  assert (length (FieldManager.options (FieldManager.formData st)) = 0%nat
          ↔ FieldManager.options (FieldManager.formData st) = []) as ->.
  { by destruct (FieldManager.options _). }
  destruct (decide (FieldManager.type (FieldManager.formData st) = dropdown)); tauto.
Qed.

Lemma handleSubmit_fields_accepted (clock : Clock) (fields : list CustomField.t)
    (st : FieldManager.State) :
  (FieldManager.validateForm fields st).2 = true →
  FieldManager.handleSubmit clock fields st
  = (FieldManager.closedForm,
     let fieldData :=
       CustomField.mk
         (match FieldManager.editingField st with
          | Some e => orString (CustomField.id e) (Date_now_toString clock)
          | None => Date_now_toString clock
          end)
         (JS.trim (FieldManager.name (FieldManager.formData st)))
         (FieldManager.type (FieldManager.formData st))
         (if bool_decide (FieldManager.type (FieldManager.formData st) = dropdown)
          then Some (FieldManager.options (FieldManager.formData st)) else None)
         (FieldManager.required (FieldManager.formData st)) in
     match FieldManager.editingField st with
     | Some e =>
         (λ f, if bool_decide (CustomField.id f = CustomField.id e)
               then fieldData else f) <$> fields
     | None => fields ++ [fieldData]
     end).
Proof.
  intros Hok. unfold FieldManager.handleSubmit.
  destruct (FieldManager.validateForm fields st) as [e valid]. simpl in *. by subst.
Qed.

(** X12. Opening a field for editing and saving it untouched changes
    nothing, provided the field is a well-kept one: its id is not empty and
    is its alone, its name is trimmed, not blank and its alone up to case,
    and it carries options exactly when it is a dropdown, then at least
    one. *)
Theorem edit_field_untouched_is_noop (clock : Clock) (fields : list CustomField.t)
    (f : CustomField.t) :
  f ∈ fields →
  CustomField.id f ≠ ""%string →
  (∀ g, g ∈ fields → CustomField.id g = CustomField.id f → g = f) →
  JS.trim (CustomField.name f) = CustomField.name f →
  CustomField.name f ≠ ""%string →
  (∀ g, g ∈ fields →
     sameNameIgnoringCase (CustomField.name g) (CustomField.name f) →
     CustomField.id g = CustomField.id f) →
  optionsFitType f →
  FieldManager.handleSubmit clock fields (editOf f)
  = (FieldManager.closedForm, fields).
Proof.
  intros Hin Hid Huniq Htrim Hname Hnames Hopts.
  assert ((FieldManager.validateForm fields (editOf f)).2 = true) as Hok.
  { apply field_form_accepted_iff. simpl. split; [congruence|]. split.
    - intros g Hg Hsame. rewrite (Hnames g Hg Hsame).
      by rewrite bool_decide_eq_true_2.
    - intros Hdrop. unfold optionsFitType in Hopts. rewrite Hdrop in Hopts.
      destruct Hopts as (opts & -> & Hne). done. }
  rewrite handleSubmit_fields_accepted by done. simpl. f_equal.
  unfold orString. rewrite (proj2 (truthyString_true _) Hid), Htrim.
  assert (CustomField.mk (CustomField.id f) (CustomField.name f) (CustomField.type f)
            (if bool_decide (CustomField.type f = dropdown)
             then Some (default [] (CustomField.options f)) else None)
            (CustomField.required f) = f) as ->.
  { unfold optionsFitType in Hopts. destruct f as [i n t o r]. simpl in *.
    destruct t; simpl in *; subst; try done.
    by destruct Hopts as (opts & -> & _). }
  rewrite <-(list_fmap_id fields) at 2. apply list_fmap_ext.
  intros _ g Hg%list_elem_of_lookup_2. simpl.
  case_bool_decide as Hgid; [|done]. symmetry. by apply Huniq.
Qed.

Lemma edit_field_untouched_is_noop_witness :
  FieldManager.handleSubmit laterClock Mock.mockFields (editOf Mock.licensePlate)
  = (FieldManager.closedForm, Mock.mockFields).
Proof.
  apply (edit_field_untouched_is_noop laterClock Mock.mockFields Mock.licensePlate).
  - apply list_elem_of_further, list_elem_of_here.
  - discriminate.
  - intros g Hg Hid. unfold Mock.mockFields in Hg.
    repeat (apply elem_of_cons in Hg as [->|Hg]; [by vm_compute in Hid|]).
    by apply elem_of_nil in Hg.
  - reflexivity.
  - discriminate.
  - intros g Hg Hsame. unfold Mock.mockFields in Hg.
    repeat (apply elem_of_cons in Hg as [->|Hg]; [by vm_compute in Hsame|]).
    by apply elem_of_nil in Hg.
  - reflexivity.
Defined.

(** X13. An accepted field submission never re-keys the schema: when
    adding, the new field goes last, under the clock's id and the trimmed
    name, and the others stay; when editing a field with a non-empty id,
    the list of ids stays as it was and every field with another id is
    kept. *)
Theorem field_submit_accepted (clock : Clock) (fields : list CustomField.t)
    (st : FieldManager.State) :
  (FieldManager.validateForm fields st).2 = true →
  let fields' := (FieldManager.handleSubmit clock fields st).2 in
  match FieldManager.editingField st with
  | None =>
      ∃ new, fields' = fields ++ [new]
             ∧ CustomField.id new = Date_now_toString clock
             ∧ CustomField.name new
               = JS.trim (FieldManager.name (FieldManager.formData st))
  | Some e =>
      (CustomField.id e ≠ ""%string →
       CustomField.id <$> fields' = CustomField.id <$> fields)
      ∧ length fields' = length fields
      ∧ (∀ i g, fields !! i = Some g → CustomField.id g ≠ CustomField.id e →
           fields' !! i = Some g)
  end.
Proof.
  intros Hok. simpl. rewrite handleSubmit_fields_accepted by done. simpl.
  destruct (FieldManager.editingField st) as [e|].
  - split; [|split].
    + intros Hid. rewrite <-list_fmap_compose. apply list_fmap_ext.
      intros _ g _. simpl. case_bool_decide as Hg; [|done]. simpl.
      unfold orString. by rewrite (proj2 (truthyString_true _) Hid).
    + apply length_fmap.
    + intros i g Hi Hne. rewrite list_lookup_fmap, Hi. simpl.
      by rewrite bool_decide_eq_false_2.
  - eexists. split; [reflexivity|]. done.
Qed.

Lemma field_submit_accepted_witness :
  ∃ new, (FieldManager.handleSubmit laterClock Mock.mockFields vinForm).2
         = Mock.mockFields ++ [new]
         ∧ CustomField.id new = Date_now_toString laterClock
         ∧ CustomField.name new = JS.trim "VIN".
Proof.
  apply (field_submit_accepted laterClock Mock.mockFields vinForm).
  vm_compute; reflexivity.
Defined.

Lemma toLowerCase_sym (a b : string) :
  sameNameIgnoringCase a b → sameNameIgnoringCase b a.
Proof. unfold sameNameIgnoringCase. congruence. Qed.

(** X14. When the name is typed without surrounding white space and ids
    are unique, an accepted or rejected field submission keeps the names
    of the schema unique up to case. *)
Theorem trimmed_submission_keeps_names_unique (clock : Clock)
    (fields : list CustomField.t) (st : FieldManager.State) :
  JS.trim (FieldManager.name (FieldManager.formData st))
  = FieldManager.name (FieldManager.formData st) →
  NoDup (CustomField.id <$> fields) →
  namesUniqueIgnoringCase fields →
  namesUniqueIgnoringCase (FieldManager.handleSubmit clock fields st).2.
Proof.
  intros Htrim Hids Huniq.
  destruct (FieldManager.validateForm fields st).2 eqn:Hok;
    [|by rewrite handleSubmit_invalid].
  pose proof Hok as (_ & Hfree & _)%field_form_accepted_iff.
  rewrite handleSubmit_fields_accepted by done. simpl. rewrite Htrim.
  destruct (FieldManager.editingField st) as [e|]; simpl in *.
  - intros i j f g Hi Hj Hne Hsame.
    rewrite list_lookup_fmap in Hi, Hj.
    destruct (fields !! i) as [fi|] eqn:Hfi; [|done].
    destruct (fields !! j) as [gj|] eqn:Hgj; [|done].
    simpl in Hi, Hj. injection Hi as <-. injection Hj as <-.
    assert (fi ∈ fields) as Hfin by by eapply list_elem_of_lookup_2.
    assert (gj ∈ fields) as Hgin by by eapply list_elem_of_lookup_2.
    destruct (bool_decide (CustomField.id fi = CustomField.id e)) eqn:Hfe;
      destruct (bool_decide (CustomField.id gj = CustomField.id e)) eqn:Hge;
      simpl in Hsame.
    + apply bool_decide_eq_true_1 in Hfe, Hge. apply Hne.
      eapply (NoDup_lookup _ i j (CustomField.id e) Hids);
        rewrite list_lookup_fmap;
        [rewrite Hfi; simpl; by f_equal|rewrite Hgj; simpl; by f_equal].
    + specialize (Hfree gj Hgin (toLowerCase_sym _ _ Hsame)).
      by rewrite Hge in Hfree.
    + specialize (Hfree fi Hfin Hsame). by rewrite Hfe in Hfree.
    + by eapply (Huniq i j fi gj).
  - intros i j f g Hi Hj Hne Hsame.
    destruct (decide (i < length fields)%nat) as [Hil|Hil];
      destruct (decide (j < length fields)%nat) as [Hjl|Hjl].
    + rewrite lookup_app_l in Hi, Hj by done. by eapply (Huniq i j f g).
    + rewrite lookup_app_l in Hi by done.
      rewrite lookup_app_r in Hj by lia.
      destruct (j - length fields)%nat; [|done]. injection Hj as <-. simpl in Hsame.
      by specialize (Hfree f ltac:(by eapply list_elem_of_lookup_2) Hsame).
    + rewrite lookup_app_l in Hj by done.
      rewrite lookup_app_r in Hi by lia.
      destruct (i - length fields)%nat; [|done]. injection Hi as <-. simpl in Hsame.
      by specialize (Hfree g ltac:(by eapply list_elem_of_lookup_2)
                       (toLowerCase_sym _ _ Hsame)).
    + rewrite lookup_app_r in Hi, Hj by lia.
      destruct (i - length fields)%nat eqn:Hi0; [|by destruct n].
      destruct (j - length fields)%nat eqn:Hj0; [|by destruct n]. lia.
Qed.

Lemma trimmed_submission_keeps_names_unique_witness :
  namesUniqueIgnoringCase
    (FieldManager.handleSubmit laterClock Mock.mockFields vinForm).2.
Proof.
  apply (trimmed_submission_keeps_names_unique laterClock Mock.mockFields vinForm).
  - reflexivity.
  - apply (bool_decide_unpack _). by vm_compute.
  - apply mock_names_unique.
Defined.

(** ** Option and document sub-lists *)

Lemma filterWithIndex_past {A : Type} (t off : nat) (l : list A) :
  (t < off)%nat →
  Builtins.filterWithIndex (λ _ index, negb (bool_decide (index = t))) off l = l.
Proof.
  revert off. induction l as [|x l IH]; intros off Hlt; [done|].
  simpl. rewrite bool_decide_eq_false_2 by lia. simpl. f_equal. apply IH. lia.
Qed.

Lemma filterWithIndex_delete {A : Type} (t off : nat) (l : list A) :
  (off ≤ t)%nat →
  Builtins.filterWithIndex (λ _ index, negb (bool_decide (index = t))) off l
  = delete (t - off)%nat l.
Proof.
  revert off. induction l as [|x l IH]; intros off Hle.
  - simpl. by destruct (t - off)%nat.
  - simpl. destruct (decide (off = t)) as [->|Hne].
    + rewrite bool_decide_eq_true_2 by done. simpl.
      rewrite Nat.sub_diag. simpl. apply filterWithIndex_past. lia.
    + rewrite bool_decide_eq_false_2 by done. simpl.
      replace (t - off)%nat with (S (t - S off)) by lia. simpl. f_equal.
      apply IH. lia.
Qed.

Lemma removeAt_delete {A : Type} (k : nat) (l : list A) :
  Builtins.removeAt k l = delete k l.
Proof.
  unfold Builtins.removeAt. rewrite filterWithIndex_delete by lia.
  by rewrite Nat.sub_0_r.
Qed.

(** X15. Removing an option, or a document, by position takes out exactly
    the entry at that position and keeps the others in order; a position
    past the end removes nothing. Removing the position of a document just
    uploaded restores the document list. *)
Theorem remove_by_position (st : FieldManager.State) (formData : VehicleForm.FormData)
    (clock : Clock) (k : nat) :
  FieldManager.options (FieldManager.formData (FieldManager.removeOption st k))
  = delete k (FieldManager.options (FieldManager.formData st))
  ∧ VehicleForm.documents (VehicleForm.removeDocument formData k)
    = delete k (VehicleForm.documents formData)
  ∧ ((length (VehicleForm.documents formData) ≤ k)%nat →
     VehicleForm.removeDocument formData k = formData)
  ∧ VehicleForm.removeDocument (VehicleForm.handleDocumentUpload clock formData)
      (length (VehicleForm.documents formData))
    = formData.
Proof.
  split; [apply removeAt_delete|]. split; [apply removeAt_delete|]. split.
  - intros Hk. unfold VehicleForm.removeDocument. rewrite removeAt_delete.
    rewrite delete_take_drop, take_ge, drop_ge, app_nil_r by lia.
    by destruct formData.
  - unfold VehicleForm.removeDocument, VehicleForm.handleDocumentUpload. simpl.
    rewrite removeAt_delete.
    assert (delete (length (VehicleForm.documents formData))
              (VehicleForm.documents formData ++ [VehicleForm.newDocument clock])
            = VehicleForm.documents formData) as ->.
    { by rewrite delete_middle, app_nil_r. }
    by destruct formData.
Qed.

(** X16. Adding an option does nothing when the typed value is blank or
    already listed; otherwise it appends the trimmed value with the chosen
    color and empties the input. Either way the listed options stay in
    front, and option values that were pairwise different stay so. *)
Theorem add_option_keeps_values_unique (st : FieldManager.State) :
  let value := JS.trim (FieldManager.newOption st) in
  let values s := DropdownOption.value <$> FieldManager.options (FieldManager.formData s) in
  (value = ""%string ∨ value ∈ values st → FieldManager.addOption st = st)
  ∧ (value ≠ ""%string → value ∉ values st →
     FieldManager.options (FieldManager.formData (FieldManager.addOption st))
     = FieldManager.options (FieldManager.formData st)
       ++ [DropdownOption.mk value (Some (FieldManager.newOptionColor st))]
     ∧ FieldManager.newOption (FieldManager.addOption st) = ""%string)
  ∧ FieldManager.options (FieldManager.formData st)
    `prefix_of` FieldManager.options (FieldManager.formData (FieldManager.addOption st))
  ∧ (NoDup (values st) → NoDup (values (FieldManager.addOption st))).
Proof.
  simpl.
  set (value := JS.trim (FieldManager.newOption st)).
  set (opts := FieldManager.options (FieldManager.formData st)).
  assert (existsb (λ opt, bool_decide (DropdownOption.value opt = value)) opts = true
          ↔ value ∈ DropdownOption.value <$> opts) as Hlisted.
  { rewrite existsb_exists, list_elem_of_fmap. split.
    - intros (o & Ho%list_elem_of_In & Hv%bool_decide_eq_true_1). eauto.
    - intros (o & -> & Ho). exists o. split; [by apply list_elem_of_In|].
      by apply bool_decide_eq_true_2. }
  unfold FieldManager.addOption. fold value. fold opts.
  destruct (JS.truthyString value) eqn:Htruthy; simpl.
  - apply truthyString_true in Htruthy.
    destruct (existsb _ opts) eqn:Hex; simpl.
    + pose proof (proj1 Hlisted eq_refl) as Hin.
      split; [done|]. split; [done|]. done.
    + assert (value ∉ DropdownOption.value <$> opts) as Hnew.
      { intros Hin. apply Hlisted in Hin. discriminate Hin. }
      split; [by intros [?|?]|]. split; [done|]. split; [by apply prefix_app_r|].
      intros Hnd. rewrite fmap_app. simpl.
      apply NoDup_app. split; [done|]. split; [|apply NoDup_singleton].
      intros v Hv ->%list_elem_of_singleton. done.
  - assert (value = ""%string) as Hblank.
    { destruct (decide (value = ""%string)) as [|Hne]; [done|].
      apply truthyString_true in Hne. congruence. }
    split; [done|]. split; [done|]. done.
Qed.

Lemma add_option_keeps_values_unique_witness :
  FieldManager.options (FieldManager.formData (FieldManager.addOption redOptionForm))
  = [ DropdownOption.mk "Blue" (Some "#0000ff"%string);
      DropdownOption.mk "Red" (Some "#ff0000"%string) ]
  ∧ FieldManager.newOption (FieldManager.addOption redOptionForm) = ""%string.
Proof.
  apply (proj1 (proj2 (add_option_keeps_values_unique redOptionForm))).
  - discriminate.
  - vm_compute. intros Hin. apply list_elem_of_singleton in Hin. discriminate Hin.
Defined.

(** ** The vehicle form *)




(** X18. Entering a value for a field name makes that value the one read
    for the name, also when the name is that of an inherited member, and
    leaves what is read for every other name; a required field is then
    reported missing exactly when the entered value is falsy. Clearing
    the field's error never touches the name and mileage errors and never
    adds an error. *)
Theorem custom_field_change_read_back (schema : list CustomField.t)
    (errors : gmap string string) (fd : VehicleForm.FormData)
    (fieldName : string) (value : JS.Value) :
  let fd' := VehicleForm.handleCustomFieldChange fd fieldName value in
  JS.getProp (VehicleForm.customFields fd') fieldName = value
  ∧ (∀ k, k ≠ fieldName →
       JS.getProp (VehicleForm.customFields fd') k
       = JS.getProp (VehicleForm.customFields fd) k)
  ∧ (∀ field, valueMissing fd' field
              ↔ if decide (CustomField.name field = fieldName)
                then JS.truthy value = false else valueMissing fd field)
  ∧ VehicleForm.clearCustomError schema errors fieldName !! "name"%string
    = errors !! "name"%string
  ∧ VehicleForm.clearCustomError schema errors fieldName !! "mileage"%string
    = errors !! "mileage"%string
  ∧ VehicleForm.clearCustomError schema errors fieldName ⊆ errors.
Proof.
  simpl.
  assert (∀ k, JS.getProp (<[fieldName := value]> (VehicleForm.customFields fd)) k
               = if decide (k = fieldName) then value
                 else JS.getProp (VehicleForm.customFields fd) k) as Hread.
  { intros k. unfold JS.getProp. destruct (decide (k = fieldName)) as [->|Hne].
    - by rewrite lookup_insert_eq.
    - by rewrite lookup_insert_ne. }
  split; [|split; [|split]].
  - rewrite Hread. by rewrite decide_True.
  - intros k Hk. rewrite Hread. by rewrite decide_False.
  - intros field. unfold valueMissing. simpl. rewrite Hread.
    by destruct (decide (CustomField.name field = fieldName)).
  - unfold VehicleForm.clearCustomError.
    destruct (find _ schema) as [f|]; [|by repeat split].
    destruct (_ && _); [|by repeat split].
    destruct (customKey_not_base f) as [Hn Hm].
    rewrite !lookup_delete_ne by done. repeat split. apply delete_subseteq.
Qed.

(** ** Saving vehicles from the form *)

(** X19. Saving the form while a vehicle is being edited never re-keys
    the store: the list of ids and its length stay, every vehicle with
    another id is kept, and when no vehicle carries the edited id (it was
    deleted meanwhile) the store stays as it is. The schema and the
    reminders are not touched and the form is closed. *)
Theorem save_edit_keeps_ids (clock : Clock) (fd : VehicleForm.FormData)
    (st : FleetDashboard.State) (editing : Vehicle.t) :
  FleetDashboard.editingVehicle st = Some editing →
  let st' := FleetDashboard.handleSaveVehicle clock (VehicleForm.toPartial fd) st in
  Vehicle.id <$> FleetDashboard.vehicles st' = Vehicle.id <$> FleetDashboard.vehicles st
  ∧ (∀ i v, FleetDashboard.vehicles st !! i = Some v →
       Vehicle.id v ≠ Vehicle.id editing →
       FleetDashboard.vehicles st' !! i = Some v)
  ∧ (referencedVehicle (FleetDashboard.vehicles st) (Vehicle.id editing) = None →
     FleetDashboard.vehicles st' = FleetDashboard.vehicles st)
  ∧ FleetDashboard.customFields st' = FleetDashboard.customFields st
  ∧ FleetDashboard.reminders st' = FleetDashboard.reminders st
  ∧ FleetDashboard.showVehicleForm st' = false
  ∧ FleetDashboard.editingVehicle st' = None.
Proof.
  intros Hedit. simpl. rewrite Hedit.
  split; [|split; [|split; [|done]]].
  - rewrite <-list_fmap_compose. apply list_fmap_ext.
    intros _ v _. simpl. by case_bool_decide.
  - intros i v Hi Hne. rewrite list_lookup_fmap, Hi. simpl.
    by rewrite bool_decide_eq_false_2.
  - intros Hnone. rewrite <-(list_fmap_id (FleetDashboard.vehicles st)) at 2.
    apply list_fmap_ext. intros i v Hi. simpl.
    case_bool_decide as Hid; [|done]. exfalso.
    unfold referencedVehicle in Hnone.
    assert (In v (FleetDashboard.vehicles st)) as Hin
      by by eapply list_elem_of_In, list_elem_of_lookup_2.
    pose proof (find_none _ _ Hnone v Hin) as Hfalse. simpl in Hfalse.
    by rewrite bool_decide_eq_true_2 in Hfalse.
Qed.

Lemma save_edit_keeps_ids_witness :
  Vehicle.id <$> FleetDashboard.vehicles
                   (FleetDashboard.handleSaveVehicle laterClock
                      (VehicleForm.toPartial vanB) editingVan001)
  = Vehicle.id <$> FleetDashboard.vehicles editingVan001.
Proof.
  apply (save_edit_keeps_ids laterClock vanB editingVan001 van001). reflexivity.
Defined.

(** X20. Saving the form while no vehicle is being edited appends one
    vehicle and keeps the others: it carries the clock's id and audit
    stamp and the name, status, mileage, custom values and documents of
    the form. *)
Theorem save_new_appends (clock : Clock) (fd : VehicleForm.FormData)
    (st : FleetDashboard.State) :
  FleetDashboard.editingVehicle st = None →
  FleetDashboard.vehicles
    (FleetDashboard.handleSaveVehicle clock (VehicleForm.toPartial fd) st)
  = FleetDashboard.vehicles st
    ++ [ Vehicle.mk (Date_now_toString clock) (VehicleForm.name fd)
           (VehicleForm.status fd) (VehicleForm.mileage fd)
           (VehicleForm.customFields fd) (VehicleForm.documents fd)
           (toLocaleString clock) "Current User" ].
Proof.
  intros Hadd. simpl. rewrite Hadd. f_equal.
  unfold FleetDashboard.newVehicle. simpl. f_equal. f_equal.
  - unfold orString, JS.truthyString. case_bool_decide as Hname; simpl; congruence.
  - unfold orNumber. destruct (Z.eqb_spec (VehicleForm.mileage fd) 0); congruence.
Qed.

Lemma save_new_appends_witness :
  FleetDashboard.vehicles
    (FleetDashboard.handleSaveVehicle laterClock (VehicleForm.toPartial vanB)
       (FleetDashboard.handleAddVehicle Mock.initial))
  = Mock.mockVehicles
    ++ [ Vehicle.mk (Date_now_toString laterClock) "Van B" available 120
           (VehicleForm.customFields vanB) [] (toLocaleString laterClock)
           "Current User" ].
Proof.
  apply (save_new_appends laterClock vanB (FleetDashboard.handleAddVehicle Mock.initial)).
  reflexivity.
Defined.

(** X21. Opening a vehicle for editing and saving the form untouched
    changes only the audit fields of that vehicle, when its id is its
    alone. *)
Theorem save_untouched_edit_only_audits (clock : Clock) (st : FleetDashboard.State)
    (v : Vehicle.t) :
  (∀ u, u ∈ FleetDashboard.vehicles st → Vehicle.id u = Vehicle.id v → u = v) →
  FleetDashboard.vehicles
    (FleetDashboard.handleSaveVehicle clock
       (VehicleForm.toPartial (VehicleForm.initialForm (Some v)))
       (FleetDashboard.handleEditVehicle v st))
  = (λ u, if bool_decide (Vehicle.id u = Vehicle.id v) then touched clock v else u)
      <$> FleetDashboard.vehicles st.
Proof.
  intros Huniq. simpl. apply list_fmap_ext.
  intros i u Hu%list_elem_of_lookup_2.
  destruct (bool_decide (Vehicle.id u = Vehicle.id v)) eqn:Hid; [|done].
  apply bool_decide_eq_true_1 in Hid. by rewrite (Huniq u Hu Hid).
Qed.

Lemma save_untouched_edit_only_audits_witness :
  FleetDashboard.vehicles
    (FleetDashboard.handleSaveVehicle laterClock
       (VehicleForm.toPartial (VehicleForm.initialForm (Some van001)))
       (FleetDashboard.handleEditVehicle van001 Mock.initial))
  = (λ u, if bool_decide (Vehicle.id u = Vehicle.id van001)
          then touched laterClock van001 else u) <$> Mock.mockVehicles.
Proof.
  apply (save_untouched_edit_only_audits laterClock Mock.initial van001).
  intros u Hu Hid. simpl in Hu. unfold Mock.mockVehicles in Hu.
  repeat (apply elem_of_cons in Hu as [->|Hu]; [by vm_compute in Hid|]).
  by apply elem_of_nil in Hu.
Defined.

(** ** Dashboard counts and the vehicle list *)

Lemma orNumber_zero (a : Z) : orNumber a 0 = a.
Proof. unfold orNumber. destruct (Z.eqb_spec a 0); congruence. Qed.

Lemma statusString_inj (s s' : VehicleStatus) :
  Builtins.statusString s = Builtins.statusString s' → s = s'.
Proof. destruct s, s'; simpl; congruence. Qed.

Lemma getStatusCounts_from (counts : gmap string Z) (vehicles : list Vehicle.t)
    (s : VehicleStatus) :
  FleetDashboard.countOf
    (foldl (λ counts vehicle,
              <[Builtins.statusString (Vehicle.status vehicle) :=
                  FleetDashboard.countOf counts
                    (Builtins.statusString (Vehicle.status vehicle)) + 1]> counts)
       counts vehicles)
    (Builtins.statusString s)
  = FleetDashboard.countOf counts (Builtins.statusString s)
    + Z.of_nat (length (filter (λ v, Vehicle.status v = s) vehicles)).
Proof.
  revert counts. induction vehicles as [|v vs IH]; intros counts; [simpl; lia|].
  simpl. rewrite IH, filter_cons.
  unfold FleetDashboard.countOf at 1. rewrite orNumber_zero.
  destruct (decide (Vehicle.status v = s)) as [->|Hne].
  - rewrite lookup_insert_eq. simpl. lia.
  - rewrite lookup_insert_ne by (intros Heq%statusString_inj; done).
    unfold FleetDashboard.countOf. rewrite orNumber_zero. lia.
Qed.

(** X22. The status counts of the dashboard give, for each status, the
    number of vehicles with that status (0 when there is none, as shown on
    the Available card), and the four counts add up to the number of
    vehicles. *)
Theorem status_counts_count (vehicles : list Vehicle.t) :
  (∀ s, FleetDashboard.countOf (FleetDashboard.getStatusCounts vehicles)
          (Builtins.statusString s)
        = Z.of_nat (length (filter (λ v, Vehicle.status v = s) vehicles)))
  ∧ FleetDashboard.countOf (FleetDashboard.getStatusCounts vehicles) "available"
    + FleetDashboard.countOf (FleetDashboard.getStatusCounts vehicles) "in-use"
    + FleetDashboard.countOf (FleetDashboard.getStatusCounts vehicles) "maintenance"
    + FleetDashboard.countOf (FleetDashboard.getStatusCounts vehicles) "inactive"
    = Z.of_nat (length vehicles).
Proof.
  assert (∀ s, FleetDashboard.countOf (FleetDashboard.getStatusCounts vehicles)
                 (Builtins.statusString s)
               = Z.of_nat (length (filter (λ v, Vehicle.status v = s) vehicles)))
    as Hcount.
  { intros s. unfold FleetDashboard.getStatusCounts. by rewrite getStatusCounts_from. }
  split; [exact Hcount|].
  pose proof (Hcount available) as Ha. pose proof (Hcount in_use) as Hu.
  pose proof (Hcount maintenance) as Hm. pose proof (Hcount inactive) as Hi.
  simpl in Ha, Hu, Hm, Hi. rewrite Ha, Hu, Hm, Hi. clear.
  induction vehicles as [|v vs IH]; [done|].
  rewrite !filter_cons. destruct (Vehicle.status v) eqn:Hs;
    repeat (first [rewrite decide_True by done | rewrite decide_False by done]);
    simpl length; lia.
Qed.

Lemma startsWith_refl (s : string) : Builtins.startsWith s s = true.
Proof. induction s as [|c s IH]; [done|]. simpl. by rewrite bool_decide_eq_true_2. Qed.

Lemma includes_empty (s : string) : Builtins.includes s "" = true.
Proof. by destruct s. Qed.

Lemma includes_refl (s : string) : Builtins.includes s s = true.
Proof. destruct s; simpl; [done|]. by rewrite bool_decide_eq_true_2, startsWith_refl. Qed.

Lemma lower_ascii_idem (c : ascii) : JS.lower_ascii (JS.lower_ascii c) = JS.lower_ascii c.
Proof. by destruct c as [[] [] [] [] [] [] [] []]. Qed.

Lemma toLowerCase_idem (s : string) : JS.toLowerCase (JS.toLowerCase s) = JS.toLowerCase s.
Proof. induction s as [|c s IH]; [done|]. simpl. by rewrite lower_ascii_idem, IH. Qed.

Section ListFilter.
Context (String_ : JS.Value → string).

(** X23. The vehicle list shows vehicles of the store in their order. With
    no search term it shows every vehicle under the filter 'all', and
    under a status filter exactly the vehicles with that status; under a
    filter other than 'all' every vehicle shown has the filter as its
    status, whatever the search term. *)
Theorem list_filter_by_status (searchTerm statusFilter : string)
    (vehicles : list Vehicle.t) :
  VehicleList.filteredVehicles String_ searchTerm statusFilter vehicles
    `sublist_of` vehicles
  ∧ VehicleList.filteredVehicles String_ "" "all" vehicles = vehicles
  ∧ (∀ s, VehicleList.filteredVehicles String_ "" (Builtins.statusString s) vehicles
          = filter (λ v, Vehicle.status v = s) vehicles)
  ∧ (statusFilter ≠ "all"%string →
     ∀ v, v ∈ VehicleList.filteredVehicles String_ searchTerm statusFilter vehicles →
          Builtins.statusString (Vehicle.status v) = statusFilter).
Proof.
  unfold VehicleList.filteredVehicles. split; [apply sublist_filter|].
  assert (∀ v, VehicleList.matchesSearch String_ "" v = true) as Hall.
  { intros v. unfold VehicleList.matchesSearch. simpl. by rewrite includes_empty. }
  split; [|split].
  - induction vehicles as [|v vs IH]; [done|].
    rewrite filter_cons, decide_True; [by rewrite IH|].
    by rewrite Hall.
  - intros s. induction vehicles as [|v vs IH]; [done|].
    rewrite !filter_cons, IH, Hall. unfold VehicleList.matchesStatus.
    rewrite bool_decide_eq_false_2 by by destruct s.
    simpl. destruct (decide (Vehicle.status v = s)) as [->|Hne].
    + by rewrite decide_True by by rewrite bool_decide_eq_true_2.
    + rewrite decide_False; [done|].
      rewrite bool_decide_eq_false_2; [done|]. by intros ?%statusString_inj.
  - intros Hne v [Hv _]%list_elem_of_filter.
    apply andb_true_iff in Hv as [_ Hst]. unfold VehicleList.matchesStatus in Hst.
    rewrite bool_decide_eq_false_2 in Hst by done. simpl in Hst.
    by apply bool_decide_eq_true_1 in Hst.
Qed.

(** X24. The search ignores the case of the search term, and a vehicle
    whose name is the search term up to case is found whenever it passes
    the status filter. *)
Theorem list_search_ignores_case (searchTerm statusFilter : string)
    (vehicles : list Vehicle.t) :
  VehicleList.filteredVehicles String_ (JS.toLowerCase searchTerm) statusFilter vehicles
  = VehicleList.filteredVehicles String_ searchTerm statusFilter vehicles
  ∧ (∀ v, v ∈ vehicles →
       JS.toLowerCase (Vehicle.name v) = JS.toLowerCase searchTerm →
       VehicleList.matchesStatus statusFilter v = true →
       v ∈ VehicleList.filteredVehicles String_ searchTerm statusFilter vehicles).
Proof.
  split.
  - unfold VehicleList.filteredVehicles, VehicleList.matchesSearch.
    by rewrite toLowerCase_idem.
  - intros v Hv Hname Hst. unfold VehicleList.filteredVehicles.
    apply list_elem_of_filter. split; [|done].
    rewrite Hst, andb_true_r. unfold VehicleList.matchesSearch.
    by rewrite Hname, includes_refl.
Qed.

End ListFilter.

(** ** Required custom fields *)









